(** * pyfair: FairDataInput (pyfair/model/model_input.py)

    A shallow embedding of the input checker and router of a FAIR model:
    keyword arguments are classified into a distribution family, checked,
    sampled, clipped for the targets that live in [0, 1], and recorded in
    the dictionary of supplied values.

    Conventions of the embedding.
    - A Python [dict] whose iteration order is observable (keyword
      arguments, the nested dictionary of [generate_multi], the columns of
      a data frame) is an association list in insertion order; such a list
      stands for a dictionary only when its keys are pairwise distinct.
    - [self._supplied_values] is only ever indexed by key, so it is a
      finite map.
    - Numbers are rationals: comparisons are exact; the only arithmetic on
      them is the product and row sum of [generate_multi].
    - The three random samplers (scipy's bernoulli and norm, and
      FairBetaPert) are parameters of the development.  They read and
      advance an explicit generator state, and may raise. *)

From Stdlib Require Import QArith.
From stdpp Require Import gmap strings list fin_maps.

Local Open Scope string_scope.

(** ** Values, dictionaries in insertion order *)

Abbreviation kwargs := (list (string * Q)).
Abbreviation column_dict := (list (string * kwargs)).
Abbreviation nested_dict := (list (string * column_dict)).

Section Dict.
Context {V : Type}.

(** [d[k]], [None] standing for the KeyError. *)
Fixpoint dict_get (k : string) (d : list (string * V)) : option V :=
  match d with
  | [] => None
  | (k', v) :: d' => if decide (k = k') then Some v else dict_get k d'
  end.

(** [d[k] = v]: an existing key keeps its position, a new key goes last. *)
Fixpoint dict_set (k : string) (v : V) (d : list (string * V))
  : list (string * V) :=
  match d with
  | [] => [(k, v)]
  | (k', v') :: d' =>
      if decide (k = k') then (k, v) :: d' else (k', v') :: dict_set k v d'
  end.

Definition keys (d : list (string * V)) : list string := d.*1.
Definition values (d : list (string * V)) : list V := d.*2.
End Dict.

(** ** Distribution families and exceptions *)

(** The four bound methods that [_parameter_map] ranges over. *)
Inductive family := GenConstant | GenPert | GenNormal | GenBernoulli.

Global Instance family_eq_dec : EqDecision family.
Proof. solve_decision. Defined.

(** The six [raise FairException(...)] sites, one constructor per message. *)
Inductive fair_error :=
| OutOfRange (target key : string)
    (* target must have key value between zero and one *)
| NegativeValue (key : string)
    (* key is less than zero *)
| MissingKeyword (f : family) (key : string)
    (* function is missing key *)
| UnrecognizedKeyword (key : string)
    (* key is not a recognized keyword *)
| MixedKeyword (ks : list string)
    (* the keys mix incompatible keywords *)
| PertOrdering (kw : kwargs) (condition_name : string).
    (* the parameters fail the named PERT requirement *)

Inductive exn :=
| FairException (e : fair_error)
| IndexError                  (* list index out of range *)
| KeyError (key : string)     (* kwargs['...'] on an absent key *)
| ValueError (got : nat)      (* unpacking [got] values into two names *)
| SamplerError (msg : string) (* raised inside an external sampler *).

(** The exception is one of the validation errors of the module. *)
Definition is_fair (e : exn) : Prop :=
  match e with FairException _ => True | _ => False end.

Inductive res (A : Type) := Ok (a : A) | Raise (e : exn).
Arguments Ok {A} a.
Arguments Raise {A} e.

Definition res_bind {A B} (r : res A) (k : A -> res B) : res B :=
  match r with Ok a => k a | Raise e => Raise e end.

Notation "'try!' x ':=' r 'in' k" := (res_bind r (fun x => k))
  (at level 10, x pattern, r at level 100, k at level 200).

(** [for x in l: body(x)], stopping at the first exception. *)
Fixpoint for_each {A} (l : list A) (body : A -> res unit) : res unit :=
  match l with
  | [] => Ok tt
  | x :: l' => try! _ := body x in for_each l' body
  end.

(** ** The tables of [__init__] *)

Definition _le_1_targets : list string :=
  ["Action"; "Vulnerability"; "Control Strength"; "Threat Capability"].

Definition _parameter_map : list (string * family) :=
  [("constant", GenConstant);
   ("high", GenPert); ("mode", GenPert); ("low", GenPert); ("gamma", GenPert);
   ("mean", GenNormal); ("stdev", GenNormal);
   ("p", GenBernoulli)].

Definition _bernoulli_targets : list string := ["Vulnerability"].

Definition _required_keywords (f : family) : list string :=
  match f with
  | GenConstant => ["constant"]
  | GenPert => ["low"; "mode"; "high"]
  | GenNormal => ["mean"; "stdev"]
  | GenBernoulli => ["p"]
  end.

(** ** Validation *)

Definition Qlt_bool (x y : Q) : bool := negb (Qle_bool y x).

(** [_check_le_1]: every value but stdev of a [0, 1] target is in [0, 1]. *)
Definition _check_le_1 (target : string) (kw : kwargs) : res unit :=
  for_each kw (fun '(key, value) =>
    if decide (target ∈ _le_1_targets) then
      if decide (key = "stdev") then Ok tt
      else if Qle_bool 0 value && Qle_bool value 1 then Ok tt
      else Raise (FairException (OutOfRange target key))
    else Ok tt).

(** [_check_parameters]: first no relevant value is negative, then every
    required keyword of the function is there. *)
Definition _check_parameters (target_function : family) (kw : kwargs)
  : res unit :=
  try! _ := for_each kw (fun '(keyword, value) =>
    let value_is_less_than_zero := Qlt_bool value 0 in
    let keyword_is_relevant :=
      bool_decide (keyword ∈ ["p"; "mean"; "constant"; "low"; "mode"; "high"]) in
    if keyword_is_relevant && value_is_less_than_zero
    then Raise (FairException (NegativeValue keyword))
    else Ok tt) in
  let required_keywords := _required_keywords target_function in
  for_each required_keywords (fun required_keyword =>
    if decide (required_keyword ∈ keys kw) then Ok tt
    else Raise (FairException (MissingKeyword target_function required_keyword))).

(** [_determine_func]: the one function all keywords map to.  The list of
    functions is a set turned into a list; with no keyword at all it is
    empty and [functions[0]] is out of range.  Every key has passed the
    first loop when the comprehension looks it up, so no lookup fails. *)
Definition _determine_func (kw : kwargs) : res family :=
  try! _ := for_each (keys kw) (fun key =>
    if decide (key ∈ keys _parameter_map) then Ok tt
    else Raise (FairException (UnrecognizedKeyword key))) in
  let functions :=
    remove_dups (omap (fun key => dict_get key _parameter_map) (keys kw)) in
  if decide (1 < length functions)%nat
  then Raise (FairException (MixedKeyword (keys kw)))
  else match functions !! 0%nat with
       | Some function => Ok function
       | None => Raise IndexError
       end.

(** [_check_pert]: both comparisons are evaluated (four lookups) before
    either is tested. *)
Definition kw_get (kw : kwargs) (k : string) : res Q :=
  match dict_get k kw with Some v => Ok v | None => Raise (KeyError k) end.

Definition _check_pert (kw : kwargs) : res unit :=
  try! mode := kw_get kw "mode" in
  try! low := kw_get kw "low" in
  try! high := kw_get kw "high" in
  try! mode' := kw_get kw "mode" in
  let conditions :=
    [("mode >= low", Qle_bool low mode); ("high >= mode", Qle_bool mode' high)] in
  for_each conditions (fun '(condition_name, condition_value) =>
    if negb condition_value
    then Raise (FairException (PertOrdering kw condition_name))
    else Ok tt).

(** ** numpy and pandas, as far as the module uses them *)

(** [np.clip(x, 0.0, 1.0)] on one entry. *)
Definition clip (x : Q) : Q :=
  if Qlt_bool x 0 then 0%Q else if Qlt_bool 1 x then 1%Q else x.

(** [s.lstrip(chars)]: drops leading characters as long as they belong to
    the set [chars]. *)
Fixpoint lstrip (chars : string) (s : string) : string :=
  match s with
  | EmptyString => EmptyString
  | String c s' =>
      if decide (c ∈ String.list_ascii_of_string chars) then lstrip chars s' else s
  end.

(** A data frame over [RangeIndex(index)]: named columns in insertion
    order, each with [index] entries, [None] being a missing entry (NaN). *)
Record DataFrame := {
  index : nat;
  columns : list (string * list (option Q))
}.

(** [pd.DataFrame()] *)
Definition DataFrame_empty : DataFrame := {| index := 0; columns := [] |}.

(** A column conformed to [RangeIndex(n)]: labels it lacks are missing. *)
Definition reindex (col : list (option Q)) (n : nat) : list (option Q) :=
  (fun i => default None (col !! i)) <$> seq 0 n.

(** [df[column] = pd.Series(data)].  A frame whose index is still empty
    takes the index of a non-empty series; otherwise the series is
    conformed to the index of the frame. *)
Definition df_setitem (df : DataFrame) (column : string) (data : list Q)
  : DataFrame :=
  let df :=
    if decide (index df = 0 ∧ 0 < length data)%nat
    then {| index := length data;
            columns := prod_map id (fun col => reindex col (length data))
                         <$> columns df |}
    else df in
  {| index := index df;
     columns := dict_set column (reindex (Some <$> data) (index df))
                  (columns df) |}.

(** The entry of column [c] at row [i], if the frame has one. *)
Definition cell (df : DataFrame) (c : string) (i : nat) : option Q :=
  match dict_get c (columns df) with
  | Some col => default None (col !! i)
  | None => None
  end.

(** [df1 * df2]: both operands are aligned on the union of their row
    labels and the union of their column names; an entry is the product
    where both operands have one, and missing elsewhere.  The product
    itself is the exact one, where numpy rounds (float64) or wraps
    (int64): nothing below is stated about the value of a product or of
    a row sum that has an entry. *)
Definition df_mul (df1 df2 : DataFrame) : DataFrame :=
  let rows := index df1 `max` index df2 in
  let names :=
    (keys (columns df1)
       ++ filter (fun c => c ∉ keys (columns df1)) (keys (columns df2)))%list in
  {| index := rows;
     columns := (fun c =>
       (c, (fun i => match cell df1 c i, cell df2 c i with
                     | Some a, Some b => Some (a * b)%Q
                     | _, _ => None
                     end) <$> seq 0 rows)) <$> names |}.

(** [df.sum(axis=1)]: per row, the sum of the entries that are there
    (missing ones are skipped; a row with none sums to zero). *)
Definition df_sum_axis1 (df : DataFrame) : list Q :=
  (fun i => foldl (fun acc '(_, col) =>
               match default None (col !! i) with
               | Some x => (acc + x)%Q
               | None => acc
               end) 0%Q (columns df)) <$> seq 0 (index df).

(** ** The object: generator state and supplied values *)

(** What [_supplied_values] holds under a key: the keyword arguments of
    [generate], or the nested dictionary of [generate_multi]. *)
Inductive stored :=
| Params (kw : kwargs)
| Nested (kwargs_dict : nested_dict).

(** The external samplers.  Each reads and advances the state of the random
    generator, and returns [count] variates or raises. *)
Class Samplers := {
  (** State of the random generator behind scipy and FairBetaPert. *)
  RNG : Type;
  (** [scipy.stats.bernoulli(kwargs...).rvs(count)] *)
  bernoulli_rvs : kwargs -> nat -> RNG -> res (list Q) * RNG;
  (** [scipy.stats.norm(loc=mean, scale=stdev).rvs(count)] *)
  norm_rvs : Q -> Q -> nat -> RNG -> res (list Q) * RNG;
  (** [FairBetaPert(kwargs...).random_variates(count)] *)
  pert_rvs : kwargs -> nat -> RNG -> res (list Q) * RNG
}.

Section FairDataInput.
Context `{Samplers}.

Record state := {
  rng : RNG;
  _supplied_values : gmap string stored
}.

(** Computations on the object: a result or an exception, and the state
    the object is left in. *)
Definition M (A : Type) : Type := state -> res A * state.

Definition ret {A} (a : A) : M A := fun st => (Ok a, st).
Definition raise {A} (e : exn) : M A := fun st => (Raise e, st).
Definition bind {A B} (m : M A) (k : A -> M B) : M B :=
  fun st => match m st with
            | (Ok a, st') => k a st'
            | (Raise e, st') => (Raise e, st')
            end.
Definition lift {A} (r : res A) : M A := fun st => (r, st).

(** Runs a sampler on the generator of the object. *)
Definition sample {A} (f : RNG -> res A * RNG) : M A :=
  fun st => let '(r, g) := f (rng st) in
            (r, {| rng := g; _supplied_values := _supplied_values st |}).

(** [self._supplied_values[key] = v] *)
Definition set_supplied (key : string) (v : stored) : M unit :=
  fun st => (Ok tt, {| rng := rng st;
                       _supplied_values := <[key := v]> (_supplied_values st) |}).

Notation "'let!' x ':=' m 'in' k" := (bind m (fun x => k))
  (at level 10, x pattern, m at level 100, k at level 200).

(** A loop that threads a local variable through its iterations. *)
Fixpoint for_fold {A B} (l : list A) (acc : B) (body : A -> B -> M B) : M B :=
  match l with
  | [] => ret acc
  | x :: l' => let! acc' := body x acc in for_fold l' acc' body
  end.

(** *** Samplers *)

Definition _gen_bernoulli (count : nat) (kw : kwargs) : M (list Q) :=
  sample (bernoulli_rvs kw count).

Definition _gen_constant (count : nat) (kw : kwargs) : M (list Q) :=
  let! constant := lift (kw_get kw "constant") in
  ret (replicate count constant).

Definition _gen_normal (count : nat) (kw : kwargs) : M (list Q) :=
  let! mean := lift (kw_get kw "mean") in
  let! stdev := lift (kw_get kw "stdev") in
  sample (norm_rvs mean stdev count).

Definition _gen_pert (count : nat) (kw : kwargs) : M (list Q) :=
  let! _ := lift (_check_pert kw) in
  sample (pert_rvs kw count).

(** Calling the bound method a family tag stands for. *)
Definition call_func (func : family) : nat -> kwargs -> M (list Q) :=
  match func with
  | GenConstant => _gen_constant
  | GenPert => _gen_pert
  | GenNormal => _gen_normal
  | GenBernoulli => _gen_bernoulli
  end.

(** *** Generation *)

Definition _generate_single (target : string) (count : nat) (kw : kwargs)
  : M (list Q) :=
  let! _ :=
    if decide (target ∈ _le_1_targets)
    then lift (_check_le_1 target kw) else ret tt in
  let! results :=
    if decide (target ∈ _bernoulli_targets)
    then _gen_bernoulli count kw
    else
      let! func := lift (_determine_func kw) in
      let! _ := lift (_check_parameters func kw) in
      call_func func count kw in
  let results :=
    if decide (target ∈ _le_1_targets) then clip <$> results else results in
  ret results.

Definition generate (target : string) (count : nat) (kw : kwargs)
  : M (list Q) :=
  let! result := _generate_single target count kw in
  let dict_keys := keys kw in
  let kw :=
    if bool_decide ("low" ∈ dict_keys) && negb (bool_decide ("gamma" ∈ dict_keys))
    then dict_set "gamma" 4%Q kw else kw in
  let! _ := set_supplied target (Params kw) in
  ret result.

(** The two nested loops of [generate_multi]: one frame per target, one
    column per entry of the column dictionary of the target. *)
Definition fill_frames (count : nat) (kwargs_dict : nested_dict)
  : M (list (string * DataFrame)) :=
  let df_dict := (fun target => (target, DataFrame_empty)) <$> keys kwargs_dict in
  for_fold kwargs_dict df_dict (fun '(target, column_dict) df_dict =>
    for_fold column_dict df_dict (fun '(column, params) df_dict =>
      let! data := _generate_single target count params in
      match dict_get target df_dict with
      | Some df => ret (dict_set target (df_setitem df column data) df_dict)
      | None => raise (KeyError target)
      end)).

Definition generate_multi (prefixed_target : string) (count : nat)
    (kwargs_dict : nested_dict) : M (list Q) :=
  let final_target := lstrip "multi_" prefixed_target in
  let! df_dict := fill_frames count kwargs_dict in
  match values df_dict with
  | [df1; df2] =>
      let combined_df := df_mul df1 df2 in
      let summed := df_sum_axis1 combined_df in
      let new_target := "multi_" +:+ final_target in
      let! _ := set_supplied new_target (Nested kwargs_dict) in
      ret summed
  | vs => raise (ValueError (length vs))
  end.

Definition get_supplied_values (st : state) : gmap string stored :=
  _supplied_values st.

(** The two public entry points, as one type of requests. *)
Inductive request :=
| Generate (target : string) (count : nat) (kw : kwargs)
| GenerateMulti (prefixed_target : string) (count : nat)
    (kwargs_dict : nested_dict).

Definition run (r : request) : M (list Q) :=
  match r with
  | Generate target count kw => generate target count kw
  | GenerateMulti prefixed_target count kwargs_dict =>
      generate_multi prefixed_target count kwargs_dict
  end.

(** The key a request writes when it succeeds, and what it writes. *)
Definition stored_key (r : request) : string :=
  match r with
  | Generate target _ _ => target
  | GenerateMulti prefixed_target _ _ =>
      "multi_" +:+ lstrip "multi_" prefixed_target
  end.

Definition stored_entry (r : request) : stored :=
  match r with
  | Generate _ _ kw =>
      Params (if bool_decide ("low" ∈ keys kw)
                 && negb (bool_decide ("gamma" ∈ keys kw))
              then dict_set "gamma" 4%Q kw else kw)
  | GenerateMulti _ _ kwargs_dict => Nested kwargs_dict
  end.

End FairDataInput.

(** What the callers rely on from the samplers: [count] variates. *)
Class SamplersLawful `{Samplers} := {
  bernoulli_rvs_length kw count g xs g' :
    bernoulli_rvs kw count g = (Ok xs, g') -> length xs = count;
  norm_rvs_length mean stdev count g xs g' :
    norm_rvs mean stdev count g = (Ok xs, g') -> length xs = count;
  pert_rvs_length kw count g xs g' :
    pert_rvs kw count g = (Ok xs, g') -> length xs = count
}.

(** ** A deterministic instance of the samplers

    The generator state is a tape of uniform draws in [0, 1); a sampler
    consumes one draw per variate (zeros once the tape is used up).  The
    instance rejects what the libraries reject: keyword arguments that the
    distribution does not take, and a negative scale. *)
Module Replay.

Definition draws (count : nat) (tape : list Q) : list Q * list Q :=
  (take count (tape ++ replicate count 0%Q), drop count tape).

Definition bernoulli (kw : kwargs) (count : nat) (tape : list Q)
  : res (list Q) * list Q :=
  match kw with
  | [(key, p)] =>
      if decide (key = "p") then
        let '(us, tape') := draws count tape in
        (Ok ((fun u => if Qlt_bool u p then 1%Q else 0%Q) <$> us), tape')
      else (Raise (SamplerError "TypeError"), tape)
  | _ => (Raise (SamplerError "TypeError"), tape)
  end.

Definition norm (mean stdev : Q) (count : nat) (tape : list Q)
  : res (list Q) * list Q :=
  if Qlt_bool stdev 0 then (Raise (SamplerError "ValueError"), tape)
  else
    let '(us, tape') := draws count tape in
    (Ok ((fun u => mean + stdev * (6 * u - 3))%Q <$> us), tape').

Definition pert (kw : kwargs) (count : nat) (tape : list Q)
  : res (list Q) * list Q :=
  match dict_get "low" kw, dict_get "mode" kw, dict_get "high" kw with
  | Some low, Some _, Some high =>
      if forallb (fun k => bool_decide (k ∈ ["low"; "mode"; "high"; "gamma"]))
           (keys kw)
      then
        let '(us, tape') := draws count tape in
        (Ok ((fun u => low + (high - low) * u)%Q <$> us), tape')
      else (Raise (SamplerError "TypeError"), tape)
  | _, _, _ => (Raise (SamplerError "TypeError"), tape)
  end.

Definition samplers : Samplers := {|
  RNG := list Q;
  bernoulli_rvs := bernoulli;
  norm_rvs := norm;
  pert_rvs := pert
|}.

Definition init (tape : list Q) : @state samplers :=
  @Build_state samplers tape ∅.

End Replay.

(** * Properties *)

(** ** Rational comparisons and clipping *)

Lemma Qlt_bool_iff (x y : Q) : Qlt_bool x y = true <-> (x < y)%Q.
Proof.
  unfold Qlt_bool. rewrite negb_true_iff, <- not_true_iff_false, Qle_bool_iff.
  split; [apply Qnot_le_lt | apply Qlt_not_le].
Qed.

Lemma Qlt_bool_false (x y : Q) : Qlt_bool x y = false <-> (y <= x)%Q.
Proof.
  unfold Qlt_bool. rewrite negb_false_iff. apply Qle_bool_iff.
Qed.

Lemma clip_range (x : Q) : (0 <= clip x <= 1)%Q.
Proof.
  unfold clip.
  destruct (Qlt_bool x 0) eqn:H0; [split; [apply Qle_refl | discriminate] |].
  destruct (Qlt_bool 1 x) eqn:H1; [split; [discriminate | apply Qle_refl] |].
  apply Qlt_bool_false in H0, H1. by split.
Qed.

Lemma clip_id (x : Q) : (0 <= x)%Q -> (x <= 1)%Q -> clip x = x.
Proof.
  intros H0 H1. unfold clip.
  apply Qlt_bool_false in H0, H1. by rewrite H0, H1.
Qed.

(** ** Loops *)

Lemma for_each_raise {A} (l : list A) (body : A -> res unit) e :
  for_each l body = Raise e -> ∃ x, x ∈ l ∧ body x = Raise e.
Proof.
  induction l as [|x l IH]; simpl; [done |].
  destruct (body x) as [[]|e'] eqn:Hx; simpl.
  - intros (y & Hy & Hb)%IH. exists y. split; [by right | done].
  - intros [= ->]. exists x. split; [by left | done].
Qed.

Lemma for_each_ok {A} (l : list A) (body : A -> res unit) :
  (∀ x, x ∈ l -> body x = Ok tt) -> for_each l body = Ok tt.
Proof.
  induction l as [|x l IH]; simpl; [done |].
  intros Hl. rewrite (Hl x) by left. simpl. apply IH.
  intros y Hy. apply Hl. by right.
Qed.

Lemma for_each_fails {A} (l : list A) (body : A -> res unit) x e :
  x ∈ l -> body x = Raise e -> ∃ e', for_each l body = Raise e'.
Proof.
  intros Hx Hb. induction Hx as [x l|x y l Hx IH]; simpl.
  - rewrite Hb. by eexists.
  - destruct (body y) as [[]|e0]; simpl; [by apply IH | by eexists].
Qed.

Lemma for_each_ok_inv {A} (l : list A) (body : A -> res unit) x :
  for_each l body = Ok tt -> x ∈ l -> body x = Ok tt.
Proof.
  intros Hl Hx. induction Hx as [x l|x y l Hx IH]; simpl in Hl.
  - by destruct (body x) as [[]|].
  - destruct (body y) as [[]|]; [by apply IH | done].
Qed.

(** ** Dictionaries *)

Section DictFacts.
Context {V : Type}.
Implicit Types (d : list (string * V)) (k : string).

Lemma dict_get_Some_keys k d v : dict_get k d = Some v -> k ∈ keys d.
Proof.
  induction d as [|[k' v'] d IH]; simpl; [done |].
  case_decide; [intros _; subst; left | intros ?; right; auto].
Qed.

Lemma dict_get_keys k d : k ∈ keys d -> is_Some (dict_get k d).
Proof.
  induction d as [|[k' v'] d IH]; simpl; [by intros ?%elem_of_nil |].
  case_decide; [by eexists |].
  intros [?|?]%elem_of_cons; [done | by apply IH].
Qed.

Lemma dict_get_None k d : k ∉ keys d -> dict_get k d = None.
Proof.
  intros Hk. destruct (dict_get k d) eqn:Hd; [| done].
  by apply dict_get_Some_keys in Hd.
Qed.

Lemma dict_set_fresh k v d : k ∉ keys d -> dict_set k v d = (d ++ [(k, v)])%list.
Proof.
  induction d as [|[k' v'] d IH]; simpl; [done |].
  intros [? ?]%not_elem_of_cons. rewrite decide_False by done.
  by rewrite IH.
Qed.

Lemma dict_get_set_eq k v d : dict_get k (dict_set k v d) = Some v.
Proof.
  induction d as [|[k' v'] d IH]; simpl.
  - by rewrite decide_True.
  - case_decide; simpl; [by rewrite decide_True | by rewrite decide_False].
Qed.

Lemma dict_get_set_ne k k' v d :
  k ≠ k' -> dict_get k' (dict_set k v d) = dict_get k' d.
Proof.
  intros Hne. induction d as [|[k0 v0] d IH]; simpl.
  - by rewrite decide_False.
  - case_decide; simpl; subst.
    + by rewrite !decide_False.
    + by rewrite IH.
Qed.

Lemma dict_set_keys k v v' d :
  dict_get k d = Some v -> keys (dict_set k v' d) = keys d.
Proof.
  induction d as [|[k0 v0] d IH]; simpl; [done |].
  case_decide; simpl; [by subst | intros ?; f_equal; by apply IH].
Qed.

Lemma dict_set_set k v v' d : dict_set k v' (dict_set k v d) = dict_set k v' d.
Proof.
  induction d as [|[k0 v0] d IH]; simpl.
  - by rewrite decide_True.
  - case_decide; simpl; [by rewrite decide_True |].
    rewrite decide_False by done. by rewrite IH.
Qed.

Lemma dict_set_keys_elem k v d k' :
  k' ∈ keys (dict_set k v d) -> k' = k ∨ k' ∈ keys d.
Proof.
  unfold keys. induction d as [|[k0 v0] d IH]; simpl.
  - intros ?%list_elem_of_singleton. by left.
  - case_decide; simpl; subst; rewrite !elem_of_cons; [tauto |].
    intros [?|?%IH]; tauto.
Qed.

Lemma dict_set_same k v d : dict_get k d = Some v -> dict_set k v d = d.
Proof.
  induction d as [|[k0 v0] d IH]; simpl; [done |].
  case_decide; [by intros [= ->]; subst | intros ?; f_equal; by apply IH].
Qed.
End DictFacts.

(** ** Strings *)

(** Where [lstrip] does remove just the prefix: the name is empty or
    starts with a character outside the stripped set. *)
Lemma lstrip_multi_prefix (c : Ascii.ascii) (name : string) :
  c ∉ String.list_ascii_of_string "multi_" ->
  lstrip "multi_" ("multi_" +:+ String c name) = String c name.
Proof.
  intros Hc. simpl. by rewrite decide_False.
Qed.

(** ** Data frames *)

Lemma df_setitem_index (df : DataFrame) (column : string) (data : list Q) count :
  length data = count ->
  index df = 0%nat ∨ index df = count ->
  index (df_setitem df column data) = count.
Proof.
  intros Hlen Hidx. unfold df_setitem. case_decide; simpl; lia.
Qed.

Lemma df_setitem_keys (df : DataFrame) (column : string) (data : list Q) c :
  c ∈ keys (columns (df_setitem df column data)) ->
  c = column ∨ c ∈ keys (columns df).
Proof.
  unfold df_setitem. intros [?|Hc]%dict_set_keys_elem; [by left | right].
  case_decide; simpl in Hc; [| done].
  unfold keys in *. rewrite <- list_fmap_compose in Hc.
  erewrite list_fmap_ext in Hc; [done |]. by intros ? [? ?] ?.
Qed.

Lemma foldl_all_missing (i : nat) (cols : list (string * list (option Q))) acc :
  Forall (fun col => default None (col.2 !! i) = None) cols ->
  foldl (fun acc '(_, col) =>
           match default None (col !! i) with
           | Some x => (acc + x)%Q
           | None => acc
           end) acc cols = acc.
Proof.
  intros Hall. revert acc.
  induction Hall as [|[c col] cols Hc _ IH]; intros acc; simpl; [done |].
  simpl in Hc. by rewrite Hc, IH.
Qed.

(** Frames without a common column name: every entry of the product is
    missing, so every row sums to zero. *)
Lemma df_mul_disjoint_sum (df1 df2 : DataFrame) :
  (∀ c, c ∈ keys (columns df1) -> c ∉ keys (columns df2)) ->
  df_sum_axis1 (df_mul df1 df2) = replicate (index df1 `max` index df2) 0%Q.
Proof.
  intros Hdisj. unfold df_sum_axis1, df_mul. simpl.
  transitivity (replicate (length (seq 0 (index df1 `max` index df2))) 0%Q);
    [| by rewrite length_seq].
  apply const_fmap. intros _ i _. apply foldl_all_missing.
  apply Forall_fmap, Forall_forall. intros c Hc. simpl.
  rewrite list_lookup_fmap.
  destruct (seq 0 _ !! i) as [j|]; simpl; [| done].
  assert (cell df1 c j = None ∨ cell df2 c j = None) as [->| ->].
  { unfold cell. apply elem_of_app in Hc as [Hc|Hc].
    - right. by rewrite dict_get_None by auto.
    - left. apply list_elem_of_filter in Hc as [Hc _].
      by rewrite dict_get_None. }
  - done.
  - by destruct (cell df1 c j).
Qed.


(** ** Tables *)

Lemma bernoulli_targets_le_1 (target : string) :
  target ∈ _bernoulli_targets -> target ∈ _le_1_targets.
Proof.
  intros ->%list_elem_of_singleton. unfold _le_1_targets.
  rewrite !elem_of_cons. auto.
Qed.

Section Properties.
Context `{Samplers}.

Implicit Types (st : state) (kw : kwargs) (target : string) (count : nat).

(** *** The store is written by [set_supplied] only *)

Lemma bind_ok {A B} (m : M A) (k : A -> M B) st b st' :
  bind m k st = (Ok b, st') ->
  ∃ a st1, m st = (Ok a, st1) ∧ k a st1 = (Ok b, st').
Proof.
  unfold bind. destruct (m st) as [[a|e] st1]; [eauto | done].
Qed.

Lemma sample_supplied {A} (f : RNG -> res A * RNG) st :
  _supplied_values (sample f st).2 = _supplied_values st.
Proof. unfold sample. by destruct (f (rng st)). Qed.

Lemma call_func_supplied func count kw st :
  _supplied_values (call_func func count kw st).2 = _supplied_values st.
Proof.
  destruct func; simpl;
    unfold _gen_constant, _gen_pert, _gen_normal, _gen_bernoulli, bind, lift, ret;
    repeat case_match; simplify_eq/=; try done;
    match goal with
    | E : sample ?f ?s = _ |- _ =>
        pose proof (sample_supplied f s) as Hs; by rewrite E in Hs
    | |- _ => apply sample_supplied
    end.
Qed.

Lemma _generate_single_supplied target count kw st :
  _supplied_values (_generate_single target count kw st).2
  = _supplied_values st.
Proof.
  unfold _generate_single, bind, lift, ret, _gen_bernoulli.
  repeat case_match; simplify_eq/=; try done;
    repeat match goal with
    | E : sample ?f ?s = _ |- _ =>
        pose proof (sample_supplied f s) as Hs; rewrite E in Hs; clear E
    | E : call_func ?f ?c ?k ?s = _ |- _ =>
        pose proof (call_func_supplied f c k s) as Hs; rewrite E in Hs; clear E
    end; simpl in *; congruence.
Qed.

(** *** C1 *)

(** C1. On a target of [_le_1_targets], whatever [_generate_single]
    returns (it is the function [generate] returns the result of, and the
    one [generate_multi] calls for each column) lies in [0, 1], whichever
    sampler produced it: the result went through [np.clip]. *)
Theorem generate_bounded_in_unit_interval target count kw st xs st' :
  target ∈ _le_1_targets ->
  _generate_single target count kw st = (Ok xs, st')
  ∨ generate target count kw st = (Ok xs, st') ->
  Forall (fun x => 0 <= x <= 1)%Q xs.
Proof.
  intros Ht Hgen.
  assert (∃ st1, _generate_single target count kw st = (Ok xs, st1))
    as [st1 Hs].
  { destruct Hgen as [Hs|Hg]; [by eexists |].
    unfold generate in Hg.
    apply bind_ok in Hg as (ys & st1 & Hs & Hg).
    unfold bind, set_supplied, ret in Hg. simplify_eq/=. by eexists. }
  unfold _generate_single in Hs.
  apply bind_ok in Hs as (_ & st2 & _ & Hs).
  apply bind_ok in Hs as (ys & st3 & _ & Hs).
  unfold ret in Hs. rewrite decide_True in Hs by done. simplify_eq.
  apply Forall_fmap, Forall_forall. intros x _. apply clip_range.
Qed.

(** *** [_generate_single] step by step *)

Lemma _generate_single_eq target count kw st :
  _generate_single target count kw st =
  match (if decide (target ∈ _le_1_targets)
         then _check_le_1 target kw else Ok tt) with
  | Raise e => (Raise e, st)
  | Ok _ =>
      let sampled :=
        if decide (target ∈ _bernoulli_targets)
        then _gen_bernoulli count kw st
        else match _determine_func kw with
             | Raise e => (Raise e, st)
             | Ok func =>
                 match _check_parameters func kw with
                 | Raise e => (Raise e, st)
                 | Ok _ => call_func func count kw st
                 end
             end in
      match sampled with
      | (Ok results, st') =>
          (Ok (if decide (target ∈ _le_1_targets)
               then clip <$> results else results), st')
      | (Raise e, st') => (Raise e, st')
      end
  end.
Proof.
  unfold _generate_single, bind, lift, ret.
  repeat case_match; simplify_eq/=; congruence.
Qed.

Lemma generate_eq target count kw st :
  generate target count kw st =
  match _generate_single target count kw st with
  | (Ok result, st') =>
      (Ok result,
       {| rng := rng st';
          _supplied_values :=
            <[target := stored_entry (Generate target count kw)]>
              (_supplied_values st') |})
  | (Raise e, st') => (Raise e, st')
  end.
Proof.
  unfold generate, bind, ret, set_supplied. simpl.
  by destruct (_generate_single target count kw st) as [[?|?] ?].
Qed.

(** *** C9 *)

(** C9. With no keyword at all, on a target that is not bernoulli-only,
    [generate] returns nothing and raises none of the FairException
    errors: [_determine_func] indexes an empty list of functions, the
    call ends in an IndexError and the store is not written. *)
Theorem generate_empty_index_error target count st :
  target ∉ _bernoulli_targets ->
  generate target count [] st = (Raise IndexError, st)
  ∧ ¬ is_fair IndexError.
Proof.
  intros Hnb. split; [| by intros []].
  rewrite generate_eq, _generate_single_eq, (decide_False _ _ Hnb).
  by destruct (decide (target ∈ _le_1_targets)).
Qed.

(** *** C2 *)

(** C2, amended. [{constant: 5, mean: 2}] always fails and writes
    nothing, but the error depends on the target: the range check comes
    first, so on a target of [_le_1_targets] (Vulnerability included) the
    error is the out-of-range one, for [constant] (for [mean] if the
    caller passed that keyword first); on every other target it is the
    mixed-keyword one. *)
Theorem generate_constant_mean target count st :
  generate target count [("constant", 5%Q); ("mean", 2%Q)] st
  = (Raise (FairException
              (if decide (target ∈ _le_1_targets)
               then OutOfRange target "constant"
               else MixedKeyword ["constant"; "mean"])), st)
  ∧ generate target count [("mean", 2%Q); ("constant", 5%Q)] st
    = (Raise (FairException
                (if decide (target ∈ _le_1_targets)
                 then OutOfRange target "mean"
                 else MixedKeyword ["mean"; "constant"])), st).
Proof.
  rewrite !generate_eq, !_generate_single_eq.
  destruct (decide (target ∈ _le_1_targets)) as [Ht|Ht].
  - unfold _check_le_1. simpl. by rewrite !(decide_True _ _ Ht).
  - assert (target ∉ _bernoulli_targets) as Hnb.
    { intros Hb. by apply Ht, bernoulli_targets_le_1. }
    by rewrite !(decide_False _ _ Hnb).
Qed.

(** *** C7 *)

(** C7, amended. [generate(target, n, constant=c)] returns [n] copies of
    [c] (for every [n], so for every [n >= 1]) and records the keyword
    when the target is not bernoulli-only, [c >= 0], and [c <= 1] in case
    the target is one of [_le_1_targets]. *)
Theorem generate_constant target count (c : Q) st :
  target ∉ _bernoulli_targets ->
  (0 <= c)%Q ->
  (target ∈ _le_1_targets -> (c <= 1)%Q) ->
  generate target count [("constant", c)] st
  = (Ok (replicate count c),
     {| rng := rng st;
        _supplied_values :=
          <[target := Params [("constant", c)]]> (_supplied_values st) |}).
Proof.
  intros Hnb H0 H1.
  assert (_check_parameters GenConstant [("constant", c)] = Ok tt) as Hcp.
  { unfold _check_parameters. simpl.
    by rewrite (proj2 (Qlt_bool_false c 0) H0). }
  rewrite generate_eq, _generate_single_eq, (decide_False _ _ Hnb).
  change (_determine_func [("constant", c)]) with (Ok GenConstant).
  cbv beta iota zeta. rewrite Hcp.
  change (call_func GenConstant count [("constant", c)] st)
    with (Ok (replicate count c), st).
  destruct (decide (target ∈ _le_1_targets)) as [Ht|Ht]; [| done].
  unfold _check_le_1. simpl. rewrite (decide_True _ _ Ht).
  rewrite (proj2 (Qle_bool_iff 0 c) H0), (proj2 (Qle_bool_iff c 1) (H1 Ht)).
  simpl. by rewrite fmap_replicate, clip_id by auto.
Qed.

(** *** C6 *)

Lemma for_fold_supplied {A B} (l : list A) (body : A -> B -> M B) :
  (∀ x b st, _supplied_values (body x b st).2 = _supplied_values st) ->
  ∀ acc st,
    _supplied_values (for_fold l acc body st).2 = _supplied_values st.
Proof.
  intros Hbody. induction l as [|x l IH]; intros acc st; simpl; [done |].
  unfold bind. specialize (Hbody x acc st).
  destruct (body x acc st) as [[acc'|e] st1]; simpl in *; [| done].
  by rewrite IH.
Qed.

Lemma fill_frames_supplied count kwargs_dict st :
  _supplied_values (fill_frames count kwargs_dict st).2
  = _supplied_values st.
Proof.
  unfold fill_frames. apply for_fold_supplied.
  intros [target column_dict] dfd st1. apply for_fold_supplied.
  intros [column params] dfd' st2. unfold bind.
  pose proof (_generate_single_supplied target count params st2) as Hs.
  destruct (_generate_single target count params st2) as [[data|e] st3];
    simpl in *; [| done].
  by destruct (dict_get target dfd').
Qed.

Lemma generate_multi_eq prefixed_target count kwargs_dict st :
  generate_multi prefixed_target count kwargs_dict st =
  match fill_frames count kwargs_dict st with
  | (Ok df_dict, st') =>
      match values df_dict with
      | [df1; df2] =>
          (Ok (df_sum_axis1 (df_mul df1 df2)),
           {| rng := rng st';
              _supplied_values :=
                <["multi_" +:+ lstrip "multi_" prefixed_target
                  := Nested kwargs_dict]> (_supplied_values st') |})
      | vs => (Raise (ValueError (length vs)), st')
      end
  | (Raise e, st') => (Raise e, st')
  end.
Proof.
  unfold generate_multi, bind, ret, raise, set_supplied.
  destruct (fill_frames count kwargs_dict st) as [[dfd|e] st1]; [| done].
  by destruct (values dfd) as [|df1 [|df2 [|df3 vs]]].
Qed.

(** Every request either fails and leaves the store as it was, or
    succeeds and makes exactly one assignment to it. *)
Lemma run_supplied (r : request) st :
  match run r st with
  | (Ok _, st') =>
      _supplied_values st'
      = <[stored_key r := stored_entry r]> (_supplied_values st)
  | (Raise _, st') => _supplied_values st' = _supplied_values st
  end.
Proof.
  destruct r as [target count kw|prefixed_target count kwargs_dict]; simpl.
  - rewrite generate_eq.
    pose proof (_generate_single_supplied target count kw st) as Hs.
    destruct (_generate_single target count kw st) as [[xs|e] st1];
      simpl in *; by rewrite Hs.
  - rewrite generate_multi_eq.
    pose proof (fill_frames_supplied count kwargs_dict st) as Hs.
    destruct (fill_frames count kwargs_dict st) as [[dfd|e] st1];
      simpl in *; [| done].
    destruct (values dfd) as [|df1 [|df2 [|df3 vs]]]; simpl; by rewrite Hs.
Qed.

(** C6. The store is written on the success path only.  A call of
    [generate] or [generate_multi] that raises (a validation error or
    any other exception) leaves [_supplied_values] exactly as it was;
    and of two successful calls that write the same key, the second
    replaces the entry of the first: the store is what the second call
    alone would have left. *)
Theorem supplied_values_written_on_success_only :
  (∀ (r : request) st e st',
      run r st = (Raise e, st') ->
      _supplied_values st' = _supplied_values st)
  ∧ (∀ (r1 r2 : request) st xs1 st1 xs2 st2,
      run r1 st = (Ok xs1, st1) ->
      run r2 st1 = (Ok xs2, st2) ->
      stored_key r1 = stored_key r2 ->
      _supplied_values st2
      = <[stored_key r2 := stored_entry r2]> (_supplied_values st)).
Proof.
  split.
  - intros r st e st' Hr. pose proof (run_supplied r st) as Hs.
    by rewrite Hr in Hs.
  - intros r1 r2 st xs1 st1 xs2 st2 H1 H2 Hk.
    pose proof (run_supplied r1 st) as Hs1. rewrite H1 in Hs1.
    pose proof (run_supplied r2 st1) as Hs2. rewrite H2 in Hs2.
    rewrite Hs2, Hs1, Hk. apply insert_insert_eq.
Qed.

(** *** C5 *)

Lemma _determine_func_key kw func key :
  _determine_func kw = Ok func ->
  key ∈ keys kw ->
  dict_get key _parameter_map = Some func.
Proof.
  unfold _determine_func. intros Hd Hkey.
  destruct (for_each (keys kw) _) as [[]|e] eqn:Hloop; [| done].
  simpl in Hd.
  pose proof (for_each_ok_inv _ _ key Hloop Hkey) as Hrec. cbv beta in Hrec.
  case_decide as Hin; [clear Hrec | done].
  apply dict_get_keys in Hin as [g Hg].
  case_decide as Hlen; [done |].
  set (functions := remove_dups _) in *.
  assert (g ∈ functions) as Hgin.
  { apply elem_of_remove_dups, list_elem_of_omap. eauto. }
  destruct functions as [|f [|f' fs]]; simpl in *.
  - by apply elem_of_nil in Hgin.
  - apply list_elem_of_singleton in Hgin. by simplify_eq.
  - lia.
Qed.

(** C5. After a successful [generate] whose keywords have [low] and no
    [gamma], the entry stored for the target is the keywords followed
    by [gamma = 4].  The sampling itself ran on the keywords as they
    were supplied: the result is that of [_generate_single] on them,
    that is, the sampler (FairBetaPert, or bernoulli on a bernoulli-only
    target) was given the dictionary without [gamma]. *)
Theorem generate_stores_gamma_default target count kw st xs st' :
  generate target count kw st = (Ok xs, st') ->
  "low" ∈ keys kw ->
  "gamma" ∉ keys kw ->
  get_supplied_values st' !! target
    = Some (Params (kw ++ [("gamma", 4%Q)])%list)
  ∧ dict_get "gamma" (kw ++ [("gamma", 4%Q)])%list = Some 4%Q
  ∧ (∀ key, key ≠ "gamma" ->
       dict_get key (kw ++ [("gamma", 4%Q)])%list = dict_get key kw)
  ∧ dict_get "gamma" kw = None
  ∧ (∃ st1, _generate_single target count kw st = (Ok xs, st1)
            ∧ rng st1 = rng st')
  ∧ (∃ ys,
       (if decide (target ∈ _bernoulli_targets)
        then bernoulli_rvs kw count (rng st)
        else pert_rvs kw count (rng st)) = (Ok ys, rng st')
       ∧ xs = if decide (target ∈ _le_1_targets) then clip <$> ys else ys).
Proof.
  intros Hgen Hlow Hgamma. unfold get_supplied_values.
  rewrite generate_eq in Hgen.
  destruct (_generate_single target count kw st) as [[xs1|e] st1] eqn:Hs;
    [| done].
  simpl in Hgen.
  rewrite (bool_decide_true _ Hlow), (bool_decide_false _ Hgamma) in Hgen.
  simpl in Hgen. rewrite (dict_set_fresh _ _ _ Hgamma) in Hgen.
  simplify_eq. simpl.
  split; [apply lookup_insert_eq |].
  split; [rewrite <- (dict_set_fresh _ _ _ Hgamma); apply dict_get_set_eq |].
  split.
  { intros key Hne. rewrite <- (dict_set_fresh _ _ _ Hgamma).
    by apply dict_get_set_ne. }
  split; [by apply dict_get_None |].
  split; [by exists st1 |].
  rewrite _generate_single_eq in Hs.
  destruct (if decide (target ∈ _le_1_targets) then _ else _) as [[]|];
    [| done].
  cbv zeta in Hs. destruct (decide (target ∈ _bernoulli_targets)).
  - unfold _gen_bernoulli, sample in Hs.
    destruct (bernoulli_rvs kw count (rng st)) as [[ys|?] g]; [| done].
    simplify_eq. by exists ys.
  - destruct (_determine_func kw) as [func|] eqn:Hf; [| done].
    pose proof (_determine_func_key _ _ _ Hf Hlow) as Hpert.
    vm_compute in Hpert. simplify_eq.
    destruct (_check_parameters GenPert kw) as [[]|]; [| done].
    simpl in Hs. unfold _gen_pert, bind, lift, sample in Hs.
    destruct (_check_pert kw) as [[]|]; [| done].
    destruct (pert_rvs kw count (rng st)) as [[ys|?] g]; [| done].
    simplify_eq. by exists ys.
Qed.

(** *** C3 *)

Lemma for_fold_inv {A B} (P : B -> Prop) (l : list A) (body : A -> B -> M B) :
  (∀ x b st b' st', P b -> body x b st = (Ok b', st') -> P b') ->
  ∀ acc st acc' st',
    P acc -> for_fold l acc body st = (Ok acc', st') -> P acc'.
Proof.
  intros Hbody. induction l as [|x l IH]; intros acc st acc' st' Hacc; simpl.
  - unfold ret. by intros [= <- <-].
  - intros (b & st1 & Hx & Hl)%bind_ok. eauto.
Qed.

(** The frames keep the keys of the nested dictionary. *)
Lemma fill_frames_keys count kwargs_dict st df_dict st' :
  fill_frames count kwargs_dict st = (Ok df_dict, st') ->
  keys df_dict = keys kwargs_dict.
Proof.
  unfold fill_frames.
  apply (for_fold_inv (fun d => keys d = keys kwargs_dict)).
  - intros [target column_dict] dfd st1 dfd' st1'.
    apply (for_fold_inv (fun d => keys d = keys kwargs_dict)).
    intros [column params] d st2 d' st2' Hd (data & st3 & _ & Hset)%bind_ok.
    destruct (dict_get target d) as [df|] eqn:Hget; [| done].
    unfold ret in Hset. simplify_eq.
    by rewrite (dict_set_keys _ _ _ _ Hget).
  - unfold keys. induction kwargs_dict as [|[target cols] l IH];
      csimpl; [done | by f_equal].
Qed.

(** C3, amended. With a number of sub-targets other than two,
    [generate_multi] never returns and never writes the store, but the
    code has no error of its own for this: an exception raised while the
    columns are generated propagates; otherwise the two-name unpacking
    of the frames raises a ValueError. *)
Theorem generate_multi_not_two prefixed_target count kwargs_dict st :
  length kwargs_dict ≠ 2%nat ->
  match fill_frames count kwargs_dict st with
  | (Ok _, st') =>
      generate_multi prefixed_target count kwargs_dict st
      = (Raise (ValueError (length kwargs_dict)), st')
  | (Raise e, st') =>
      generate_multi prefixed_target count kwargs_dict st = (Raise e, st')
  end
  ∧ _supplied_values (generate_multi prefixed_target count kwargs_dict st).2
    = _supplied_values st.
Proof.
  intros Hlen. rewrite generate_multi_eq.
  pose proof (fill_frames_supplied count kwargs_dict st) as Hs.
  destruct (fill_frames count kwargs_dict st) as [[dfd|e] st1] eqn:Hfill;
    simpl in Hs; [| done].
  apply fill_frames_keys in Hfill.
  assert (length (values dfd) = length kwargs_dict) as Hl.
  { unfold values. rewrite length_fmap.
    rewrite <- (length_fmap fst dfd), <- (length_fmap fst kwargs_dict).
    unfold keys in Hfill. by rewrite Hfill. }
  destruct (values dfd) as [|df1 [|df2 [|df3 vs]]]; simpl in *;
    rewrite <- ?Hl; first [done | lia].
Qed.

(** *** C4 *)

(** What a successful [generate_multi] stores: the nested dictionary
    itself, under the key built from the left-stripped target. *)
Lemma generate_multi_stores prefixed_target count kwargs_dict st xs st' :
  generate_multi prefixed_target count kwargs_dict st = (Ok xs, st') ->
  _supplied_values st' !! ("multi_" +:+ lstrip "multi_" prefixed_target)
  = Some (Nested kwargs_dict).
Proof.
  intros Hgen.
  pose proof (run_supplied (GenerateMulti prefixed_target count kwargs_dict) st)
    as Hs.
  simpl in Hs. rewrite Hgen in Hs. rewrite Hs. apply lookup_insert_eq.
Qed.

(** *** C10 *)

Section Lawful.
Context `{!SamplersLawful}.

Lemma _generate_single_length target count kw st xs st' :
  _generate_single target count kw st = (Ok xs, st') -> length xs = count.
Proof.
  rewrite _generate_single_eq. intros Hs.
  destruct (if decide (target ∈ _le_1_targets) then _ else _) as [[]|];
    [| done].
  cbv zeta in Hs.
  assert (∀ (f : RNG -> res (list Q) * RNG) ys st1,
            (∀ g zs g', f g = (Ok zs, g') -> length zs = count) ->
            sample f st = (Ok ys, st1) -> length ys = count) as Hsample.
  { intros f ys st1 Hf. unfold sample.
    destruct (f (rng st)) as [[zs|?] g] eqn:Hfg; intros [= <- <-]. eauto. }
  assert (∃ ys, length ys = count
            ∧ xs = if decide (target ∈ _le_1_targets)
                   then clip <$> ys else ys) as (ys & Hlen & ->).
  { destruct (decide (target ∈ _bernoulli_targets)).
    - destruct (_gen_bernoulli count kw st) as [[ys|?] st1] eqn:Hb; [| done].
      exists ys. split; [| by simplify_eq].
      eapply Hsample; [| exact Hb]. apply bernoulli_rvs_length.
    - destruct (_determine_func kw) as [func|]; [| done].
      destruct (_check_parameters func kw) as [[]|]; [| done].
      destruct (call_func func count kw st) as [[ys|?] st1] eqn:Hc; [| done].
      exists ys. split; [| by simplify_eq].
      destruct func; simpl in Hc;
        unfold _gen_constant, _gen_pert, _gen_normal, _gen_bernoulli,
          bind, lift, ret in Hc.
      + destruct (kw_get kw "constant"); [| done]. simplify_eq.
        apply length_replicate.
      + destruct (_check_pert kw); [| done].
        eapply Hsample; [| exact Hc]. apply pert_rvs_length.
      + destruct (kw_get kw "mean"); [| done].
        destruct (kw_get kw "stdev"); [| done].
        eapply Hsample; [| exact Hc]. apply norm_rvs_length.
      + eapply Hsample; [| exact Hc]. apply bernoulli_rvs_length. }
  clear Hs. destruct (decide (target ∈ _le_1_targets));
    [by rewrite length_fmap | done].
Qed.

(** The inner loop on the frame of one target: the frame gets the
    index of the series as soon as one column is set, and no column
    name that is not a key of the column dictionary. *)
Lemma fill_columns target count (column_dict : column_dict) :
  ∀ (df_dict : list (string * DataFrame)) st df_dict' st' df,
    for_fold column_dict df_dict (fun '(column, params) df_dict =>
      bind (_generate_single target count params) (fun data =>
        match dict_get target df_dict with
        | Some df => ret (dict_set target (df_setitem df column data) df_dict)
        | None => raise (KeyError target)
        end)) st = (Ok df_dict', st') ->
    dict_get target df_dict = Some df ->
    index df = 0%nat ∨ index df = count ->
    ∃ df',
      df_dict' = dict_set target df' df_dict
      ∧ index df' = (if column_dict is [] then index df else count)
      ∧ (∀ c, c ∈ keys (columns df') ->
              c ∈ keys (columns df) ∨ c ∈ keys column_dict).
Proof.
  induction column_dict as [|[column params] cols IH];
    intros dfd st dfd' st' df; simpl.
  - unfold ret. intros [= <- <-] Hget _. exists df.
    split; [by rewrite (dict_set_same _ _ _ Hget) | auto].
  - intros (dfd1 & st1 & Hstep & Hrest)%bind_ok Hget Hidx.
    apply bind_ok in Hstep as (data & st2 & Hdata & Hset).
    rewrite Hget in Hset. unfold ret in Hset. simplify_eq.
    apply _generate_single_length in Hdata.
    pose proof (df_setitem_index df column data count Hdata Hidx) as Hidx1.
    destruct (IH _ _ _ _ _ Hrest (dict_get_set_eq _ _ _) (or_intror Hidx1))
      as (df' & -> & Hidx' & Hkeys).
    exists df'. split; [by rewrite dict_set_set |]. split.
    + destruct cols; congruence.
    + intros c [Hc|Hc]%Hkeys.
      * apply df_setitem_keys in Hc as [->|Hc]; [right; by left | by left].
      * right. by right.
Qed.

(** C10, amended. Given two sub-targets without a common column name,
    at least one of which has a column, [generate_multi] does not
    fail once every column has been generated: all entries of the
    product are missing, the row sums skip them, the call returns
    [count] zeros and stores the nested dictionary. *)
Theorem generate_multi_disjoint_columns prefixed_target count
    target1 (columns1 : column_dict) target2 (columns2 : column_dict)
    st df_dict st' :
  target1 ≠ target2 ->
  (∀ c, c ∈ keys columns1 -> c ∉ keys columns2) ->
  columns1 ≠ [] ∨ columns2 ≠ [] ->
  fill_frames count [(target1, columns1); (target2, columns2)] st
    = (Ok df_dict, st') ->
  generate_multi prefixed_target count
    [(target1, columns1); (target2, columns2)] st
  = (Ok (replicate count 0%Q),
     {| rng := rng st';
        _supplied_values :=
          <["multi_" +:+ lstrip "multi_" prefixed_target
            := Nested [(target1, columns1); (target2, columns2)]]>
            (_supplied_values st) |}).
Proof.
  intros Hne Hdisj Hcols Hfill. rewrite generate_multi_eq.
  pose proof (fill_frames_supplied count
                [(target1, columns1); (target2, columns2)] st) as Hs.
  rewrite Hfill in *. simpl in Hs. rewrite Hs. clear Hs.
  unfold fill_frames in Hfill. simpl in Hfill.
  apply bind_ok in Hfill as (dfd1 & st1 & Hloop1 & Hfill).
  apply bind_ok in Hfill as (dfd2 & st2 & Hloop2 & Hfill).
  unfold ret in Hfill. simplify_eq.
  apply (fill_columns _ _ _ _ _ _ _ DataFrame_empty) in Hloop1
    as (df1 & -> & Hidx1 & Hkeys1);
    [| simpl; by rewrite decide_True | by left].
  simpl in Hloop2. rewrite decide_True in Hloop2 by done.
  apply (fill_columns _ _ _ _ _ _ _ DataFrame_empty) in Hloop2
    as (df2 & -> & Hidx2 & Hkeys2);
    [| simpl; by rewrite decide_False, decide_True | by left].
  simpl. rewrite decide_False, decide_True by done. simpl.
  rewrite df_mul_disjoint_sum.
  - do 3 f_equal. rewrite Hidx1, Hidx2. simpl.
    destruct columns1, columns2; try lia. by destruct Hcols.
  - intros c [Hc|Hc]%Hkeys1; [by apply elem_of_nil in Hc |].
    intros [Hc'|Hc']%Hkeys2; [by apply elem_of_nil in Hc' |].
    by apply (Hdisj c).
Qed.

End Lawful.

End Properties.

(** * The properties on the deterministic samplers *)

Lemma draws_length (count : nat) (tape us tape' : list Q) :
  Replay.draws count tape = (us, tape') -> length us = count.
Proof.
  unfold Replay.draws. intros [= <- _].
  rewrite length_take, List.length_app, length_replicate. lia.
Qed.

Global Instance replay_lawful : @SamplersLawful Replay.samplers.
Proof.
  split; simpl.
  - intros kw count g xs g'. unfold Replay.bernoulli.
    destruct kw as [|[key p] [|? ?]]; try done.
    case_decide; [| done].
    destruct (Replay.draws count g) as [us tape'] eqn:Hd. intros [= <- _].
    rewrite length_fmap. by eapply draws_length.
  - intros mean stdev count g xs g'. unfold Replay.norm.
    destruct (Qlt_bool stdev 0); [done |].
    destruct (Replay.draws count g) as [us tape'] eqn:Hd. intros [= <- _].
    rewrite length_fmap. by eapply draws_length.
  - intros kw count g xs g'. unfold Replay.pert.
    destruct (dict_get "low" kw); [| done].
    destruct (dict_get "mode" kw); [| done].
    destruct (dict_get "high" kw); [| done].
    destruct (forallb _ _); [| done].
    destruct (Replay.draws count g) as [us tape'] eqn:Hd. intros [= <- _].
    rewrite length_fmap. by eapply draws_length.
Qed.

(** Membership in a closed list of strings, by evaluation. *)
Ltac by_eval :=
  lazymatch goal with
  | |- _ ∉ _ =>
      let Hx := fresh in
      intros Hx; apply (bool_decide_pack _) in Hx;
      vm_compute in Hx; exact Hx
  | |- _ ≠ _ =>
      let Hx := fresh in
      intros Hx; apply (bool_decide_pack _) in Hx;
      vm_compute in Hx; exact Hx
  | |- _ => apply (bool_decide_unpack _); vm_compute; exact I
  end.

(** C1 at work: a normal sampler whose draws leave [0, 1] on both sides. *)
Lemma generate_bounded_in_unit_interval_witness :
  ∃ xs st',
    generate (H := Replay.samplers) "Action" 3
      [("mean", 0.5%Q); ("stdev", 2%Q)]
      (Replay.init [0.5%Q; 0.25%Q; 0.9%Q]) = (Ok xs, st')
    ∧ Forall (fun x => 0 <= x <= 1)%Q xs.
Proof.
  eexists _, _. split; [vm_compute; reflexivity |].
  eapply (generate_bounded_in_unit_interval (H := Replay.samplers) "Action" 3
            [("mean", 0.5%Q); ("stdev", 2%Q)]
            (Replay.init [0.5%Q; 0.25%Q; 0.9%Q])).
  - by_eval.
  - right. vm_compute. reflexivity.
Defined.

(** C2 as stated fails on Vulnerability: the error is the out-of-range
    one, and no mixed-keyword error. *)
Lemma generate_constant_mean_counterexample :
  let call :=
    generate (H := Replay.samplers) "Vulnerability" 10
      [("constant", 5%Q); ("mean", 2%Q)] (Replay.init []) in
  call.1 = Raise (FairException (OutOfRange "Vulnerability" "constant"))
  ∧ (∀ ks, call.1 ≠ Raise (FairException (MixedKeyword ks))).
Proof.
  split; [vm_compute; reflexivity |].
  intros ks Hk. vm_compute in Hk. discriminate.
Qed.

(** C3 as stated fails: with one and with three sub-targets the error is
    the ValueError of the unpacking, which is no FairException. *)
Lemma generate_multi_not_two_counterexample :
  let one := [("Loss Event Frequency", [("a", [("constant", 1%Q)])])] in
  let three :=
    [("Loss Event Frequency", [("a", [("constant", 1%Q)])]);
     ("Loss Magnitude", [("a", [("constant", 1%Q)])]);
     ("Threat Event Frequency", [("a", [("constant", 1%Q)])])] in
  let call1 :=
    generate_multi (H := Replay.samplers) "multi_Loss" 3 one (Replay.init []) in
  let call3 :=
    generate_multi (H := Replay.samplers) "multi_Loss" 3 three (Replay.init []) in
  call1.1 = Raise (ValueError 1) ∧ call3.1 = Raise (ValueError 3)
  ∧ (∀ e, is_fair e -> call1.1 ≠ Raise e ∧ call3.1 ≠ Raise e).
Proof.
  cbv zeta.
  split; [vm_compute; reflexivity |]. split; [vm_compute; reflexivity |].
  intros e He.
  split; intros Hk; vm_compute in Hk; injection Hk as <-; exact He.
Qed.

(** C3, amended, with one sub-target. *)
Lemma generate_multi_not_two_witness :
  let one := [("Loss Event Frequency", [("a", [("constant", 1%Q)])])] in
  length one ≠ 2%nat
  ∧ generate_multi (H := Replay.samplers) "multi_Loss" 3 one (Replay.init [])
    = (Raise (ValueError 1), Replay.init []).
Proof.
  split; [simpl; lia |].
  pose proof (generate_multi_not_two (H := Replay.samplers) "multi_Loss" 3
                [("Loss Event Frequency", [("a", [("constant", 1%Q)])])]
                (Replay.init [])) as Hw.
  apply proj1 in Hw; [exact Hw | simpl; lia].
Defined.

(** C4. The key under which [generate_multi] stores the nested dictionary
    is built with [lstrip], which strips leading characters of the set
    m, u, l, t, i, _ and not the prefix: for the target
    multi_loss_magnitude the dictionary is stored, as it was passed, under
    multi_oss_magnitude, and nothing is stored under the target. *)
Theorem generate_multi_lstrip_key :
  let kwargs_dict :=
    [("Loss Event Frequency", [("a", [("constant", 1%Q)])]);
     ("Loss Magnitude", [("a", [("constant", 1%Q)])])] in
  let call :=
    generate_multi (H := Replay.samplers) "multi_loss_magnitude" 2 kwargs_dict
      (Replay.init []) in
  call.1 = Ok [1%Q; 1%Q]
  ∧ _supplied_values call.2 !! "multi_oss_magnitude" = Some (Nested kwargs_dict)
  ∧ _supplied_values call.2 !! "multi_loss_magnitude" = None.
Proof.
  repeat split; vm_compute; reflexivity.
Qed.

(** C5 on a PERT request without [gamma]. *)
Lemma generate_stores_gamma_default_witness :
  let kw := [("low", 1%Q); ("mode", 2%Q); ("high", 3%Q)] in
  ∃ xs st',
    generate (H := Replay.samplers) "Loss Event Frequency" 2 kw
      (Replay.init [0.5%Q; 0.25%Q]) = (Ok xs, st')
    ∧ ("low" ∈ keys kw) ∧ ("gamma" ∉ keys kw)
    ∧ get_supplied_values st' !! "Loss Event Frequency"
      = Some (Params [("low", 1%Q); ("mode", 2%Q); ("high", 3%Q);
                      ("gamma", 4%Q)])
    ∧ pert_rvs (Samplers := Replay.samplers) kw 2 [0.5%Q; 0.25%Q]
      = (Ok xs, rng st').
Proof.
  eexists _, _. split; [vm_compute; reflexivity |].
  split; [by_eval |]. split; [by_eval |].
  pose proof (generate_stores_gamma_default (H := Replay.samplers)
                "Loss Event Frequency" 2
                [("low", 1%Q); ("mode", 2%Q); ("high", 3%Q)]
                (Replay.init [0.5%Q; 0.25%Q])) as Hw.
  edestruct Hw as (Hstored & _ & _ & _ & _ & ys & Hys & _);
    [vm_compute; reflexivity | by_eval | by_eval |].
  split; [exact Hstored |]. vm_compute. reflexivity.
Defined.

(** C6 on a rejected request, and on two requests for one target. *)
Lemma supplied_values_written_on_success_only_witness :
  let st0 := Replay.init [] in
  let bad := Generate "Action" 3 [("constant", 5%Q)] in
  let first := Generate "Loss Event Frequency" 3 [("constant", 5%Q)] in
  let second := Generate "Loss Event Frequency" 2 [("constant", 7%Q)] in
  (∃ e st', run (H := Replay.samplers) bad st0 = (Raise e, st')
            ∧ _supplied_values st' = _supplied_values st0)
  ∧ (∃ xs1 st1 xs2 st2,
        run (H := Replay.samplers) first st0 = (Ok xs1, st1)
        ∧ run (H := Replay.samplers) second st1 = (Ok xs2, st2)
        ∧ _supplied_values st2
          = <["Loss Event Frequency" := Params [("constant", 7%Q)]]>
              (_supplied_values st0)).
Proof.
  pose proof (supplied_values_written_on_success_only (H := Replay.samplers))
    as [Hfail Hrepeat].
  split.
  - eexists _, _. split; [vm_compute; reflexivity |].
    eapply (Hfail (Generate "Action" 3 [("constant", 5%Q)])).
    vm_compute. reflexivity.
  - eexists _, _, _, _. split; [vm_compute; reflexivity |].
    split; [vm_compute; reflexivity |].
    apply (Hrepeat (Generate "Loss Event Frequency" 3 [("constant", 5%Q)])
             (Generate "Loss Event Frequency" 2 [("constant", 7%Q)])
             (Replay.init []) [5%Q; 5%Q; 5%Q]
             (@Build_state Replay.samplers []
                (<["Loss Event Frequency" := Params [("constant", 5%Q)]]> ∅))
             [7%Q; 7%Q]);
      [vm_compute; reflexivity | vm_compute; reflexivity | reflexivity].
Defined.

(** C7 as stated fails on Action with [constant = 5]. *)
Lemma generate_constant_counterexample :
  (1 <= 3)%nat ∧ (0 <= 5)%Q
  ∧ generate (H := Replay.samplers) "Action" 3 [("constant", 5%Q)]
      (Replay.init [])
    = (Raise (FairException (OutOfRange "Action" "constant")), Replay.init []).
Proof.
  split; [lia |]. split; [done |]. vm_compute. reflexivity.
Qed.

(** C7, amended, on Action with [constant = 0.5]. *)
Lemma generate_constant_witness :
  ("Action" ∉ _bernoulli_targets) ∧ (0 <= 0.5)%Q
  ∧ ("Action" ∈ _le_1_targets -> (0.5 <= 1)%Q)
  ∧ generate (H := Replay.samplers) "Action" 3 [("constant", 0.5%Q)]
      (Replay.init [])
    = (Ok [0.5%Q; 0.5%Q; 0.5%Q],
       @Build_state Replay.samplers []
         (<["Action" := Params [("constant", 0.5%Q)]]> ∅)).
Proof.
  split; [by_eval |]. split; [done |]. split; [done |].
  apply (generate_constant (H := Replay.samplers) "Action" 3 0.5%Q
           (Replay.init [])); [by_eval | done | done].
Defined.

(** C8 as stated fails: PERT keywords without [high] and with a negative
    [low] raise the negative-value error. *)
Lemma generate_negative_before_missing_counterexample :
  let kw := [("low", (-1)%Q); ("mode", 2%Q)] in
  let call :=
    generate (H := Replay.samplers) "Loss Event Frequency" 3 kw
      (Replay.init []) in
  ("Loss Event Frequency" ∉ _bernoulli_targets)
  ∧ _determine_func kw = Ok GenPert
  ∧ ("high" ∈ _required_keywords GenPert) ∧ ("high" ∉ keys kw)
  ∧ call.1 = Raise (FairException (NegativeValue "low"))
  ∧ (∀ func key, call.1 ≠ Raise (FairException (MissingKeyword func key))).
Proof.
  split; [by_eval |]. split; [vm_compute; reflexivity |].
  split; [by_eval |]. split; [by_eval |].
  split; [vm_compute; reflexivity |].
  intros func key Hk. vm_compute in Hk. discriminate.
Qed.

(** C9 on Loss Event Frequency. *)
Lemma generate_empty_index_error_witness :
  ("Loss Event Frequency" ∉ _bernoulli_targets)
  ∧ generate (H := Replay.samplers) "Loss Event Frequency" 100 []
      (Replay.init [0.5%Q])
    = (Raise IndexError, Replay.init [0.5%Q]).
Proof.
  split; [by_eval |].
  apply (generate_empty_index_error (H := Replay.samplers)
           "Loss Event Frequency" 100 (Replay.init [0.5%Q])). by_eval.
Defined.

(** C10 as stated fails when neither sub-target has a column: the column
    name sets are disjoint, and the result has no entry at all. *)
Lemma generate_multi_disjoint_columns_counterexample :
  let kwargs_dict : nested_dict :=
    [("Loss Event Frequency", []); ("Loss Magnitude", [])] in
  (∀ c, c ∈ keys (V := kwargs) [] -> c ∉ keys (V := kwargs) [])
  ∧ (generate_multi (H := Replay.samplers) "multi_Loss" 3 kwargs_dict
       (Replay.init [])).1 = Ok []
  ∧ Ok (A := list Q) [] ≠ Ok (replicate 3 0%Q).
Proof.
  split; [by intros c ?%elem_of_nil |].
  split; [vm_compute; reflexivity | done].
Qed.

(** C10, amended, with a constant column and a PERT column. *)
Lemma generate_multi_disjoint_columns_witness :
  let kwargs_dict :=
    [("Loss Event Frequency", [("a", [("constant", 2%Q)])]);
     ("Loss Magnitude", [("b", [("low", 1%Q); ("mode", 2%Q); ("high", 3%Q)])])] in
  let st0 := Replay.init [0.5%Q; 0.25%Q] in
  (∃ df_dict st',
      fill_frames (H := Replay.samplers) 2 kwargs_dict st0 = (Ok df_dict, st'))
  ∧ generate_multi (H := Replay.samplers) "multi_Loss" 2 kwargs_dict st0
    = (Ok [0%Q; 0%Q],
       @Build_state Replay.samplers []
         (<["multi_Loss" := Nested kwargs_dict]> ∅)).
Proof.
  cbv zeta.
  assert (∃ df_dict,
            fill_frames (H := Replay.samplers) 2
              [("Loss Event Frequency", [("a", [("constant", 2%Q)])]);
               ("Loss Magnitude",
                [("b", [("low", 1%Q); ("mode", 2%Q); ("high", 3%Q)])])]
              (Replay.init [0.5%Q; 0.25%Q])
            = (Ok df_dict, @Build_state Replay.samplers [] ∅))
    as [df_dict Hfill].
  { eexists. vm_compute. reflexivity. }
  split; [by eexists _, _ |].
  apply (generate_multi_disjoint_columns (H := Replay.samplers) "multi_Loss" 2
           "Loss Event Frequency" [("a", [("constant", 2%Q)])]
           "Loss Magnitude"
           [("b", [("low", 1%Q); ("mode", 2%Q); ("high", 3%Q)])]
           (Replay.init [0.5%Q; 0.25%Q]) df_dict
           (@Build_state Replay.samplers [] ∅)).
  - by_eval.
  - intros c ->%list_elem_of_singleton. by_eval.
  - by left.
  - exact Hfill.
Defined.

(** * Further properties of the validation and of the store *)

(** ** Loops, once more *)

Lemma for_each_app {A} (l1 l2 : list A) (body : A -> res unit) :
  for_each (l1 ++ l2) body
  = res_bind (for_each l1 body) (fun _ => for_each l2 body).
Proof.
  induction l1 as [|x l1 IH]; simpl; [done |].
  destruct (body x) as [[]|e]; simpl; [apply IH | done].
Qed.

Lemma for_each_first_raise {A} (l1 l2 : list A) (body : A -> res unit) x e :
  (∀ y, y ∈ l1 -> body y = Ok tt) ->
  body x = Raise e ->
  for_each (l1 ++ x :: l2) body = Raise e.
Proof.
  intros Hl1 Hx. rewrite for_each_app, (for_each_ok _ _ Hl1). simpl.
  by rewrite Hx.
Qed.

Lemma NoDup_all_equal {A} (l : list A) (a : A) :
  NoDup l -> (∀ x, x ∈ l -> x = a) -> a ∈ l -> l = [a].
Proof.
  intros Hnd Hall Ha. destruct l as [|x [|y l]].
  - by apply elem_of_nil in Ha.
  - f_equal. apply Hall. by left.
  - exfalso. apply NoDup_cons in Hnd as [Hx _]. apply Hx.
    rewrite (Hall x), (Hall y); [by left | right; by left | by left].
Qed.

(** ** [_determine_func] *)

(** X1. The first keyword outside [_parameter_map] is the one reported,
    whatever follows it and whether or not the recognized keywords before
    it mix families. *)
Theorem _determine_func_unrecognized (kw1 kw2 : kwargs) (key : string) (v : Q) :
  (∀ k, k ∈ keys kw1 -> k ∈ keys _parameter_map) ->
  key ∉ keys _parameter_map ->
  _determine_func (kw1 ++ (key, v) :: kw2)
  = Raise (FairException (UnrecognizedKeyword key)).
Proof.
  intros Hrec Hkey. unfold _determine_func.
  replace (keys (kw1 ++ (key, v) :: kw2))
    with (keys kw1 ++ key :: keys kw2)%list
    by (unfold keys; by rewrite fmap_app).
  rewrite (for_each_first_raise _ _ _ key
             (FairException (UnrecognizedKeyword key))); [done | |].
  - intros k Hk. by rewrite decide_True by auto.
  - by rewrite decide_False.
Qed.

Lemma _determine_func_functions (kw : kwargs) :
  (∀ k, k ∈ keys kw -> k ∈ keys _parameter_map) ->
  _determine_func kw =
  let functions :=
    remove_dups (omap (fun key => dict_get key _parameter_map) (keys kw)) in
  if decide (1 < length functions)%nat
  then Raise (FairException (MixedKeyword (keys kw)))
  else match functions !! 0%nat with
       | Some function => Ok function
       | None => Raise IndexError
       end.
Proof.
  intros Hrec. unfold _determine_func. rewrite for_each_ok; [done |].
  intros k Hk. by rewrite decide_True by auto.
Qed.

(** X2. [_determine_func] returns a function exactly when there is at
    least one keyword and [_parameter_map] sends every keyword to that
    function. *)
Theorem _determine_func_ok_iff (kw : kwargs) (func : family) :
  _determine_func kw = Ok func
  <-> kw ≠ [] ∧ ∀ k, k ∈ keys kw -> dict_get k _parameter_map = Some func.
Proof.
  split.
  - intros Hd. split; [by intros -> |].
    intros k Hk. by eapply _determine_func_key.
  - intros [Hne Hall].
    rewrite _determine_func_functions
      by (intros k Hk; eapply dict_get_Some_keys; eauto).
    cbv zeta. set (functions := remove_dups _).
    assert (functions = [func]) as ->; [| done].
    apply NoDup_all_equal.
    + apply NoDup_remove_dups.
    + intros f (k & Hk & Hf)%elem_of_remove_dups%list_elem_of_omap.
      rewrite (Hall k Hk) in Hf. by simplify_eq.
    + apply elem_of_remove_dups, list_elem_of_omap.
      destruct kw as [|[k v] kw]; [done |].
      exists k. split; [by left | apply Hall; by left].
Qed.

(** X3. Recognized keywords of two different functions: the error is the
    mixed-keyword one, carrying all the keywords. *)
Theorem _determine_func_mixed (kw : kwargs) (k1 k2 : string) (f1 f2 : family) :
  (∀ k, k ∈ keys kw -> k ∈ keys _parameter_map) ->
  k1 ∈ keys kw -> k2 ∈ keys kw ->
  dict_get k1 _parameter_map = Some f1 ->
  dict_get k2 _parameter_map = Some f2 ->
  f1 ≠ f2 ->
  _determine_func kw = Raise (FairException (MixedKeyword (keys kw))).
Proof.
  intros Hrec Hk1 Hk2 Hf1 Hf2 Hne. rewrite _determine_func_functions by done.
  cbv zeta. set (functions := remove_dups _).
  assert (f1 ∈ functions) as H1
    by (apply elem_of_remove_dups, list_elem_of_omap; eauto).
  assert (f2 ∈ functions) as H2
    by (apply elem_of_remove_dups, list_elem_of_omap; eauto).
  destruct functions as [|a [|b l]].
  - by apply elem_of_nil in H1.
  - apply list_elem_of_singleton in H1, H2. congruence.
  - rewrite decide_True; [done | simpl; lia].
Qed.

(** ** [_check_le_1] and [_check_parameters] *)

(** X4. On a target of [_le_1_targets] the range check passes exactly
    when every value except that of [stdev] lies in [0, 1]; on any other
    target it always passes. *)
Theorem _check_le_1_ok_iff (target : string) (kw : kwargs) :
  _check_le_1 target kw = Ok tt
  <-> (target ∈ _le_1_targets ->
       ∀ key value, (key, value) ∈ kw -> key ≠ "stdev" ->
                    (0 <= value <= 1)%Q).
Proof.
  unfold _check_le_1. split.
  - intros Hok Ht key value Hin Hkey.
    pose proof (for_each_ok_inv _ _ _ Hok Hin) as Hb. cbv beta iota in Hb.
    rewrite (decide_True _ _ Ht), (decide_False _ _ Hkey) in Hb.
    destruct (Qle_bool 0 value) eqn:H0; [| done].
    destruct (Qle_bool value 1) eqn:H1; [| done].
    by apply Qle_bool_iff in H0, H1.
  - intros Hall. apply for_each_ok. intros [key value] Hin.
    destruct (decide (target ∈ _le_1_targets)) as [Ht|]; [| done].
    destruct (decide (key = "stdev")) as [|Hkey]; [done |].
    destruct (Hall Ht key value Hin Hkey) as [H0 H1].
    by rewrite (proj2 (Qle_bool_iff _ _) H0), (proj2 (Qle_bool_iff _ _) H1).
Qed.

(** X5. [_check_parameters] passes exactly when no keyword among p, mean,
    constant, low, mode, high has a negative value and every required
    keyword of the function is present; the values of [stdev] and [gamma]
    are never looked at. *)
Theorem _check_parameters_ok_iff (func : family) (kw : kwargs) :
  _check_parameters func kw = Ok tt
  <-> (∀ keyword value,
          (keyword, value) ∈ kw ->
          keyword ∈ ["p"; "mean"; "constant"; "low"; "mode"; "high"] ->
          (0 <= value)%Q)
      ∧ (∀ required, required ∈ _required_keywords func -> required ∈ keys kw).
Proof.
  unfold _check_parameters. split.
  - intros Hok.
    destruct (for_each kw _) as [[]|] eqn:Hneg; [| done]. simpl in Hok.
    split.
    + intros keyword value Hin Hrel.
      pose proof (for_each_ok_inv _ _ _ Hneg Hin) as Hb. cbv beta iota zeta in Hb.
      rewrite (bool_decide_true _ Hrel) in Hb. simpl in Hb.
      destruct (Qlt_bool value 0) eqn:Hv; [done |].
      by apply Qlt_bool_false in Hv.
    + intros required Hreq.
      pose proof (for_each_ok_inv _ _ _ Hok Hreq) as Hb. cbv beta in Hb.
      by case_decide.
  - intros [Hneg Hreq]. rewrite for_each_ok; simpl.
    + apply for_each_ok. intros required Hr.
      by rewrite decide_True by auto.
    + intros [keyword value] Hin.
      destruct (bool_decide _) eqn:Hrel; [| done].
      apply bool_decide_eq_true in Hrel. simpl.
      by rewrite (proj2 (Qlt_bool_false _ _) (Hneg _ _ Hin Hrel)).
Qed.

Section MoreProperties.
Context `{Samplers}.

Implicit Types (st : state) (kw : kwargs) (target : string) (count : nat).

(** X6. Outside [_le_1_targets], with keywords of one function and no
    negative value, the first required keyword that is absent (in the
    order of [_required_keywords]) is reported as missing; the store is
    not written. *)
Theorem generate_missing_keyword target count kw st func
    (present absent : list string) (required : string) :
  target ∉ _le_1_targets ->
  _determine_func kw = Ok func ->
  (∀ keyword value,
      (keyword, value) ∈ kw ->
      keyword ∈ ["p"; "mean"; "constant"; "low"; "mode"; "high"] ->
      (0 <= value)%Q) ->
  _required_keywords func = (present ++ required :: absent)%list ->
  (∀ r, r ∈ present -> r ∈ keys kw) ->
  required ∉ keys kw ->
  generate target count kw st
  = (Raise (FairException (MissingKeyword func required)), st).
Proof.
  intros Ht Hf Hneg Hreq Hpresent Habsent.
  assert (target ∉ _bernoulli_targets) as Hnb
    by (intros Hb; by apply Ht, bernoulli_targets_le_1).
  rewrite generate_eq, _generate_single_eq.
  rewrite (decide_False _ _ Ht), (decide_False _ _ Hnb), Hf.
  unfold _check_parameters. rewrite for_each_ok.
  - simpl. rewrite Hreq.
    rewrite (for_each_first_raise _ _ _ required
               (FairException (MissingKeyword func required))); [done | |].
    + intros r Hr. by rewrite decide_True by auto.
    + by rewrite decide_False.
  - intros [keyword value] Hin.
    destruct (bool_decide _) eqn:Hrel; [| done].
    apply bool_decide_eq_true in Hrel. simpl.
    by rewrite (proj2 (Qlt_bool_false _ _) (Hneg _ _ Hin Hrel)).
Qed.

(** X7. What a successful [generate] guarantees about its keywords, on a
    target that is not bernoulli-only: there is at least one keyword, they
    all belong to one function, whose required keywords are all present;
    none of p, mean, constant, low, mode, high is negative; on a target of
    [_le_1_targets] every value but that of [stdev] is in [0, 1]; and PERT
    keywords satisfy low <= mode <= high. *)
Theorem generate_ok_validated target count kw st xs st' :
  target ∉ _bernoulli_targets ->
  generate target count kw st = (Ok xs, st') ->
  ∃ func,
    kw ≠ []
    ∧ (∀ k, k ∈ keys kw -> dict_get k _parameter_map = Some func)
    ∧ (∀ required, required ∈ _required_keywords func -> required ∈ keys kw)
    ∧ (∀ keyword value,
          (keyword, value) ∈ kw ->
          keyword ∈ ["p"; "mean"; "constant"; "low"; "mode"; "high"] ->
          (0 <= value)%Q)
    ∧ (target ∈ _le_1_targets ->
       ∀ key value, (key, value) ∈ kw -> key ≠ "stdev" ->
                    (0 <= value <= 1)%Q)
    ∧ (func = GenPert ->
       ∃ low mode high,
         dict_get "low" kw = Some low ∧ dict_get "mode" kw = Some mode
         ∧ dict_get "high" kw = Some high
         ∧ (low <= mode)%Q ∧ (mode <= high)%Q).
Proof.
  intros Hnb Hgen. rewrite generate_eq in Hgen.
  destruct (_generate_single target count kw st) as [[ys|] st1] eqn:Hs;
    [| done].
  clear Hgen. rewrite _generate_single_eq in Hs.
  rewrite (decide_False _ _ Hnb) in Hs.
  destruct (if decide (target ∈ _le_1_targets) then _ else _)
    as [[]|] eqn:Hle; [| done].
  cbv zeta in Hs.
  destruct (_determine_func kw) as [func|] eqn:Hf; [| done].
  destruct (_check_parameters func kw) as [[]|] eqn:Hcp; [| done].
  apply _determine_func_ok_iff in Hf as [Hne Hall].
  apply _check_parameters_ok_iff in Hcp as [Hneg Hreq].
  exists func. do 4 (split; [done |]). split.
  - intros Ht. rewrite (decide_True _ _ Ht) in Hle.
    exact (proj1 (_check_le_1_ok_iff _ _) Hle Ht).
  - intros ->. simpl in Hs. unfold _gen_pert, bind, lift in Hs.
    destruct (_check_pert kw) as [[]|] eqn:Hpert; [| done].
    unfold _check_pert, kw_get in Hpert.
    destruct (dict_get "mode" kw) as [mode|]; [| done].
    destruct (dict_get "low" kw) as [low|]; [| done].
    destruct (dict_get "high" kw) as [high|]; [| done].
    simpl in Hpert. exists low, mode, high.
    destruct (Qle_bool low mode) eqn:H1; [| done].
    destruct (Qle_bool mode high) eqn:H2; [| done].
    apply Qle_bool_iff in H1, H2. done.
Qed.

(** X8. On a bernoulli-only target the keywords are checked for range
    only: once [_check_le_1] passes they go to the bernoulli sampler as
    they are, recognized or not, and the result is what the sampler
    returns, clipped; an exception of the sampler propagates and nothing
    is stored. *)
Theorem generate_bernoulli_target target count kw st :
  target ∈ _bernoulli_targets ->
  _check_le_1 target kw = Ok tt ->
  generate target count kw st =
  match bernoulli_rvs kw count (rng st) with
  | (Ok ys, g) =>
      (Ok (clip <$> ys),
       {| rng := g;
          _supplied_values :=
            <[target := stored_entry (Generate target count kw)]>
              (_supplied_values st) |})
  | (Raise e, g) =>
      (Raise e, {| rng := g; _supplied_values := _supplied_values st |})
  end.
Proof.
  intros Hb Hle. pose proof (bernoulli_targets_le_1 _ Hb) as Ht.
  rewrite generate_eq, _generate_single_eq.
  rewrite (decide_True _ _ Ht), (decide_True _ _ Hb), Hle.
  cbv zeta. unfold _gen_bernoulli, sample.
  destruct (bernoulli_rvs kw count (rng st)) as [[ys|e] g]; simpl;
    by rewrite ?(decide_True _ _ Ht).
Qed.

(** X9. PERT keywords that pass the other checks but are out of order:
    outside [_le_1_targets] the request fails with the PERT error, which
    names [mode >= low] when mode is below low (also when high is below
    mode as well) and [high >= mode] otherwise; the sampler is not called
    and nothing is stored. *)
Theorem generate_pert_ordering target count kw st (low mode high : Q) :
  target ∉ _le_1_targets ->
  _determine_func kw = Ok GenPert ->
  _check_parameters GenPert kw = Ok tt ->
  dict_get "low" kw = Some low ->
  dict_get "mode" kw = Some mode ->
  dict_get "high" kw = Some high ->
  (mode < low ∨ high < mode)%Q ->
  ∃ condition_name,
    generate target count kw st
    = (Raise (FairException (PertOrdering kw condition_name)), st)
    ∧ ((mode < low)%Q -> condition_name = "mode >= low")
    ∧ ((low <= mode)%Q -> condition_name = "high >= mode").
Proof.
  intros Ht Hf Hcp Hlow Hmode Hhigh Hord.
  assert (target ∉ _bernoulli_targets) as Hnb
    by (intros Hb; by apply Ht, bernoulli_targets_le_1).
  rewrite generate_eq, _generate_single_eq.
  rewrite (decide_False _ _ Ht), (decide_False _ _ Hnb), Hf, Hcp.
  simpl. unfold _gen_pert, bind, lift, _check_pert, kw_get.
  rewrite Hlow, Hmode, Hhigh. simpl.
  destruct (Qle_bool low mode) eqn:H1; simpl.
  - apply Qle_bool_iff in H1.
    destruct Hord as [Hlt|Hlt]; [by apply Qlt_not_le in Hlt |].
    apply Qlt_bool_iff in Hlt. unfold Qlt_bool in Hlt.
    apply negb_true_iff in Hlt. rewrite Hlt. simpl.
    exists "high >= mode". split; [done |]. split; [| done].
    intros Hlt'. by apply Qlt_not_le in Hlt'.
  - exists "mode >= low". split; [done |]. split; [done |].
    intros Hle. apply Qle_bool_iff in Hle. congruence.
Qed.

(** X10. Normal keywords outside [_le_1_targets]: with a mean that is not
    negative, [generate] is the normal sampler on (mean, stdev), whatever
    stdev is (the module never checks it); its result is returned
    unclipped and the keywords are stored as supplied, and an exception of
    the sampler propagates with nothing stored. *)
Theorem generate_normal target count (mean stdev : Q) st :
  target ∉ _le_1_targets ->
  (0 <= mean)%Q ->
  generate target count [("mean", mean); ("stdev", stdev)] st =
  match norm_rvs mean stdev count (rng st) with
  | (Ok xs, g) =>
      (Ok xs,
       {| rng := g;
          _supplied_values :=
            <[target := Params [("mean", mean); ("stdev", stdev)]]>
              (_supplied_values st) |})
  | (Raise e, g) =>
      (Raise e, {| rng := g; _supplied_values := _supplied_values st |})
  end.
Proof.
  intros Ht Hmean.
  assert (target ∉ _bernoulli_targets) as Hnb
    by (intros Hb; by apply Ht, bernoulli_targets_le_1).
  assert (_check_parameters GenNormal [("mean", mean); ("stdev", stdev)]
          = Ok tt) as Hcp.
  { unfold _check_parameters. simpl.
    by rewrite (proj2 (Qlt_bool_false mean 0) Hmean). }
  rewrite generate_eq, _generate_single_eq.
  rewrite (decide_False _ _ Ht), (decide_False _ _ Hnb).
  change (_determine_func [("mean", mean); ("stdev", stdev)])
    with (Ok GenNormal).
  cbv beta iota zeta. rewrite Hcp.
  change (call_func GenNormal count [("mean", mean); ("stdev", stdev)] st)
    with (sample (norm_rvs mean stdev count) st).
  unfold sample.
  destruct (norm_rvs mean stdev count (rng st)) as [[xs|e] g]; simpl;
    by rewrite ?(decide_False _ _ Ht).
Qed.

(** ** The store *)

(** X11. A successful request changes the store at its own key only: every
    other entry is as before.  In particular [generate_multi] records
    nothing for its sub-targets. *)
Theorem run_other_keys (r : request) st xs st' (key : string) :
  run r st = (Ok xs, st') ->
  key ≠ stored_key r ->
  get_supplied_values st' !! key = get_supplied_values st !! key.
Proof.
  intros Hr Hkey. pose proof (run_supplied r st) as Hs. rewrite Hr in Hs.
  unfold get_supplied_values. rewrite Hs. by apply lookup_insert_ne.
Qed.

(** X12. When [low] is absent or [gamma] is given, what [generate] stores
    for the target is the keyword dictionary exactly as supplied. *)
Theorem generate_stores_verbatim target count kw st xs st' :
  generate target count kw st = (Ok xs, st') ->
  "low" ∉ keys kw ∨ "gamma" ∈ keys kw ->
  get_supplied_values st' !! target = Some (Params kw).
Proof.
  intros Hgen Hcase. rewrite generate_eq in Hgen.
  destruct (_generate_single target count kw st) as [[ys|] st1]; [| done].
  simplify_eq. unfold get_supplied_values. simpl.
  rewrite lookup_insert_eq. do 2 f_equal.
  destruct Hcase as [Hlow|Hgamma].
  - by rewrite (bool_decide_false _ Hlow).
  - rewrite (bool_decide_true _ Hgamma). simpl. by rewrite andb_false_r.
Qed.

(** X13. On a target of [_le_1_targets] the entry stored after a PERT
    request without [gamma] cannot be fed back: it carries [gamma = 4],
    which the range check rejects, so [generate] on the stored keywords
    fails with the out-of-range error for [gamma]. *)
Theorem generate_stored_gamma_rejected target count kw st xs st' stored_kw :
  target ∈ _le_1_targets ->
  generate target count kw st = (Ok xs, st') ->
  "low" ∈ keys kw ->
  "gamma" ∉ keys kw ->
  get_supplied_values st' !! target = Some (Params stored_kw) ->
  ∀ count2 st2,
    generate target count2 stored_kw st2
    = (Raise (FairException (OutOfRange target "gamma")), st2).
Proof.
  intros Ht Hgen Hlow Hgamma Hstored count2 st2.
  rewrite generate_eq in Hgen.
  destruct (_generate_single target count kw st) as [[ys|] st1] eqn:Hs;
    [| done].
  simplify_eq. unfold get_supplied_values in Hstored. simpl in Hstored.
  rewrite lookup_insert_eq in Hstored.
  rewrite (bool_decide_true _ Hlow), (bool_decide_false _ Hgamma) in Hstored.
  simpl in Hstored. rewrite (dict_set_fresh _ _ _ Hgamma) in Hstored.
  simplify_eq.
  rewrite _generate_single_eq, (decide_True _ _ Ht) in Hs.
  destruct (_check_le_1 target kw) as [[]|] eqn:Hle; [| done]. clear Hs.
  rewrite generate_eq, _generate_single_eq, (decide_True _ _ Ht).
  unfold _check_le_1 in *.
  rewrite (for_each_first_raise _ _ _ ("gamma", 4%Q)
             (FairException (OutOfRange target "gamma"))); [done | |].
  - intros [k v] Hin. by apply (for_each_ok_inv _ _ _ Hle Hin).
  - by rewrite (decide_True _ _ Ht).
Qed.



End MoreProperties.

(** ** Sizes *)

Section MoreLawful.
Context `{Samplers} `{!SamplersLawful}.

(** X15. With samplers that return [count] variates, a successful
    [generate] returns exactly [count] values, for every target and every
    family (clipping keeps the length). *)
Theorem generate_length (target : string) (count : nat) (kw : kwargs)
    (st : state) xs st' :
  generate target count kw st = (Ok xs, st') -> length xs = count.
Proof.
  intros Hgen. rewrite generate_eq in Hgen.
  destruct (_generate_single target count kw st) as [[ys|] st1] eqn:Hs;
    [| done].
  simplify_eq. by eapply _generate_single_length.
Qed.

(** X16. A successful [generate_multi] on two sub-targets returns [count]
    values as soon as one of them has a column, whether or not the column
    names agree; with no column at all it returns the empty vector. *)
Theorem generate_multi_length (prefixed_target : string) (count : nat)
    (target1 : string) (columns1 : column_dict)
    (target2 : string) (columns2 : column_dict) (st : state) xs st' :
  target1 ≠ target2 ->
  generate_multi prefixed_target count
    [(target1, columns1); (target2, columns2)] st = (Ok xs, st') ->
  length xs = match columns1, columns2 with
              | [], [] => 0%nat
              | _, _ => count
              end.
Proof.
  intros Hne Hgen. rewrite generate_multi_eq in Hgen.
  destruct (fill_frames count _ st) as [[dfd|] st1] eqn:Hfill; [| done].
  unfold fill_frames in Hfill. simpl in Hfill.
  apply bind_ok in Hfill as (dfd1 & st2 & Hloop1 & Hfill).
  apply bind_ok in Hfill as (dfd2 & st3 & Hloop2 & Hfill).
  unfold ret in Hfill. simplify_eq.
  apply (fill_columns _ _ _ _ _ _ _ DataFrame_empty) in Hloop1
    as (df1 & -> & Hidx1 & _);
    [| simpl; by rewrite decide_True | by left].
  simpl in Hloop2. rewrite decide_True in Hloop2 by done.
  apply (fill_columns _ _ _ _ _ _ _ DataFrame_empty) in Hloop2
    as (df2 & -> & Hidx2 & _);
    [| simpl; by rewrite decide_False, decide_True | by left].
  simpl in Hgen. rewrite decide_False, decide_True in Hgen by done.
  simpl in Hgen. simplify_eq.
  unfold df_sum_axis1, df_mul. simpl.
  rewrite length_fmap, length_seq, Hidx1, Hidx2. simpl.
  destruct columns1, columns2; lia.
Qed.

End MoreLawful.

(** ** The key of [generate_multi] *)

Lemma lstrip_head (chars s : string) (c : Ascii.ascii) (s' : string) :
  lstrip chars s = String c s' -> c ∉ String.list_ascii_of_string chars.
Proof.
  induction s as [|c0 s IH]; simpl; [done |].
  case_decide; [done |]. by intros [= -> ->].
Qed.

Lemma lstrip_idempotent (chars s : string) :
  lstrip chars (lstrip chars s) = lstrip chars s.
Proof.
  destruct (lstrip chars s) as [|c s'] eqn:Hs; [done |].
  apply lstrip_head in Hs. simpl. by rewrite decide_False.
Qed.

(** ** The further properties on concrete requests *)

(** X1 on a PERT keyword followed by an unknown one. *)
Lemma _determine_func_unrecognized_witness :
  _determine_func [("low", 1%Q); ("foo", 2%Q); ("mean", 3%Q)]
  = Raise (FairException (UnrecognizedKeyword "foo")).
Proof.
  apply (_determine_func_unrecognized [("low", 1%Q)] [("mean", 3%Q)] "foo" 2%Q).
  - intros k ->%list_elem_of_singleton. by_eval.
  - by_eval.
Defined.

(** X2 on normal keywords. *)
Lemma _determine_func_ok_iff_witness :
  _determine_func [("mean", 1%Q); ("stdev", 2%Q)] = Ok GenNormal.
Proof.
  apply (proj2 (_determine_func_ok_iff [("mean", 1%Q); ("stdev", 2%Q)] GenNormal)).
  split; [done |].
  intros k [->|[->|[]%elem_of_nil]%elem_of_cons]%elem_of_cons; reflexivity.
Defined.

(** X3 on a constant and a mean. *)
Lemma _determine_func_mixed_witness :
  _determine_func [("constant", 5%Q); ("mean", 2%Q)]
  = Raise (FairException (MixedKeyword ["constant"; "mean"])).
Proof.
  apply (_determine_func_mixed [("constant", 5%Q); ("mean", 2%Q)]
           "constant" "mean" GenConstant GenNormal).
  - intros k [->|[->|[]%elem_of_nil]%elem_of_cons]%elem_of_cons; by_eval.
  - by_eval.
  - by_eval.
  - reflexivity.
  - reflexivity.
  - discriminate.
Defined.

(** X4 on Action: a stdev of 7 is let through. *)
Lemma _check_le_1_ok_iff_witness :
  _check_le_1 "Action" [("mean", 0.5%Q); ("stdev", 7%Q)] = Ok tt.
Proof.
  apply (proj2 (_check_le_1_ok_iff "Action" [("mean", 0.5%Q); ("stdev", 7%Q)])).
  intros _ key value
    [[= -> ->]|[[= -> ->]|[]%elem_of_nil]%elem_of_cons]%elem_of_cons Hkey;
    done.
Defined.

(** X5 on normal keywords with a negative stdev. *)
Lemma _check_parameters_ok_iff_witness :
  _check_parameters GenNormal [("mean", 1%Q); ("stdev", (-1)%Q)] = Ok tt.
Proof.
  apply (proj2 (_check_parameters_ok_iff GenNormal
                  [("mean", 1%Q); ("stdev", (-1)%Q)])).
  split.
  - intros keyword value
      [[= -> ->]|[[= -> ->]|[]%elem_of_nil]%elem_of_cons]%elem_of_cons Hrel;
      [done |].
    apply (bool_decide_pack _) in Hrel. by vm_compute in Hrel.
  - intros required [->|[->|[]%elem_of_nil]%elem_of_cons]%elem_of_cons; by_eval.
Defined.

(** X6 on PERT keywords without [high]. *)
Lemma generate_missing_keyword_witness :
  generate (H := Replay.samplers) "Loss Event Frequency" 3
    [("low", 1%Q); ("mode", 2%Q)] (Replay.init [])
  = (Raise (FairException (MissingKeyword GenPert "high")), Replay.init []).
Proof.
  apply (generate_missing_keyword (H := Replay.samplers)
           "Loss Event Frequency" 3 [("low", 1%Q); ("mode", 2%Q)]
           (Replay.init []) GenPert ["low"; "mode"] [] "high").
  - by_eval.
  - reflexivity.
  - intros keyword value
      [[= -> ->]|[[= -> ->]|[]%elem_of_nil]%elem_of_cons]%elem_of_cons _; done.
  - reflexivity.
  - intros r [->|[->|[]%elem_of_nil]%elem_of_cons]%elem_of_cons; by_eval.
  - by_eval.
Defined.

(** X7 on a PERT request. *)
Lemma generate_ok_validated_witness :
  let kw := [("low", 1%Q); ("mode", 2%Q); ("high", 3%Q)] in
  ∃ low mode high,
    dict_get "low" kw = Some low ∧ dict_get "mode" kw = Some mode
    ∧ dict_get "high" kw = Some high
    ∧ (low <= mode)%Q ∧ (mode <= high)%Q.
Proof.
  cbv zeta.
  edestruct (generate_ok_validated (H := Replay.samplers)
               "Loss Event Frequency" 2
               [("low", 1%Q); ("mode", 2%Q); ("high", 3%Q)]
               (Replay.init [0.5%Q; 0.25%Q]))
    as (func & _ & Hall & _ & _ & _ & Hpert).
  - by_eval.
  - vm_compute. reflexivity.
  - apply Hpert.
    assert (Some GenPert = Some func) as [= <-]; [| done].
    rewrite <- (Hall "low"); [reflexivity | by_eval].
Defined.

(** X8 on Vulnerability with a keyword the module does not know: no
    keyword error, the bernoulli sampler is the one to reject it. *)
Lemma generate_bernoulli_target_witness :
  generate (H := Replay.samplers) "Vulnerability" 3 [("foo", 0.5%Q)]
    (Replay.init [])
  = (Raise (SamplerError "TypeError"), Replay.init []).
Proof.
  rewrite (generate_bernoulli_target (H := Replay.samplers)
             "Vulnerability" 3 [("foo", 0.5%Q)] (Replay.init []));
    [reflexivity | by_eval | reflexivity].
Defined.

(** X9 on low = 10, mode = 5, high = 20. *)
Lemma generate_pert_ordering_witness :
  let kw := [("low", 10%Q); ("mode", 5%Q); ("high", 20%Q)] in
  generate (H := Replay.samplers) "Loss Event Frequency" 3 kw (Replay.init [])
  = (Raise (FairException (PertOrdering kw "mode >= low")), Replay.init []).
Proof.
  cbv zeta.
  destruct (generate_pert_ordering (H := Replay.samplers)
              "Loss Event Frequency" 3
              [("low", 10%Q); ("mode", 5%Q); ("high", 20%Q)]
              (Replay.init []) 10%Q 5%Q 20%Q)
    as (condition_name & Hgen & Hfirst & _);
    [by_eval | reflexivity | reflexivity | reflexivity | reflexivity
    | reflexivity | by left |].
  by rewrite Hgen, Hfirst.
Defined.

(** X10 with a negative stdev: the module lets it through and the sampler
    rejects it. *)
Lemma generate_normal_witness :
  generate (H := Replay.samplers) "Loss Event Frequency" 3
    [("mean", 1%Q); ("stdev", (-1)%Q)] (Replay.init [])
  = (Raise (SamplerError "ValueError"), Replay.init []).
Proof.
  rewrite (generate_normal (H := Replay.samplers) "Loss Event Frequency" 3
             1%Q (-1)%Q (Replay.init [])); [reflexivity | by_eval | done].
Defined.

(** X11 on a combined request: the sub-targets get no entry. *)
Lemma run_other_keys_witness :
  let r :=
    GenerateMulti "multi_Secondary Loss" 2
      [("Secondary Loss Event Frequency", [("a", [("constant", 1%Q)])]);
       ("Secondary Loss Event Magnitude", [("a", [("constant", 1%Q)])])] in
  ∃ xs st',
    run (H := Replay.samplers) r (Replay.init []) = (Ok xs, st')
    ∧ get_supplied_values st' !! "Secondary Loss Event Frequency" = None.
Proof.
  cbv zeta. eexists _, _. split; [vm_compute; reflexivity |].
  rewrite (run_other_keys (H := Replay.samplers)
             (GenerateMulti "multi_Secondary Loss" 2
                [("Secondary Loss Event Frequency", [("a", [("constant", 1%Q)])]);
                 ("Secondary Loss Event Magnitude", [("a", [("constant", 1%Q)])])])
             (Replay.init []) [1%Q; 1%Q]);
    [reflexivity | vm_compute; reflexivity | by_eval].
Defined.

(** X12 on a constant. *)
Lemma generate_stores_verbatim_witness :
  ∃ xs st',
    generate (H := Replay.samplers) "Loss Magnitude" 2 [("constant", 7%Q)]
      (Replay.init []) = (Ok xs, st')
    ∧ get_supplied_values st' !! "Loss Magnitude"
      = Some (Params [("constant", 7%Q)]).
Proof.
  eexists _, _. split; [vm_compute; reflexivity |].
  apply (generate_stores_verbatim (H := Replay.samplers) "Loss Magnitude" 2
           [("constant", 7%Q)] (Replay.init []) [7%Q; 7%Q]).
  - vm_compute. reflexivity.
  - left. by_eval.
Defined.

(** X13 on Action: the stored PERT entry is rejected when fed back. *)
Lemma generate_stored_gamma_rejected_witness :
  let kw := [("low", 0.1%Q); ("mode", 0.2%Q); ("high", 0.3%Q)] in
  ∃ xs st' stored_kw,
    generate (H := Replay.samplers) "Action" 1 kw (Replay.init [0.5%Q])
    = (Ok xs, st')
    ∧ get_supplied_values st' !! "Action" = Some (Params stored_kw)
    ∧ generate (H := Replay.samplers) "Action" 1 stored_kw st'
      = (Raise (FairException (OutOfRange "Action" "gamma")), st').
Proof.
  cbv zeta. eexists _, _, _.
  split; [vm_compute; reflexivity |]. split; [vm_compute; reflexivity |].
  eapply (generate_stored_gamma_rejected (H := Replay.samplers) "Action" 1
            [("low", 0.1%Q); ("mode", 0.2%Q); ("high", 0.3%Q)]
            (Replay.init [0.5%Q])).
  - by_eval.
  - vm_compute. reflexivity.
  - by_eval.
  - by_eval.
  - vm_compute. reflexivity.
Defined.


(** X15 on a normal request. *)
Lemma generate_length_witness :
  ∃ xs st',
    generate (H := Replay.samplers) "Action" 3
      [("mean", 0.5%Q); ("stdev", 2%Q)]
      (Replay.init [0.5%Q; 0.25%Q; 0.9%Q]) = (Ok xs, st')
    ∧ length xs = 3%nat.
Proof.
  eexists _, _. split; [vm_compute; reflexivity |].
  eapply (generate_length (H := Replay.samplers) "Action" 3
            [("mean", 0.5%Q); ("stdev", 2%Q)]
            (Replay.init [0.5%Q; 0.25%Q; 0.9%Q])).
  vm_compute. reflexivity.
Defined.

(** X16 on two sub-targets with one column each. *)
Lemma generate_multi_length_witness :
  ∃ xs st',
    generate_multi (H := Replay.samplers) "multi_Secondary Loss" 2
      [("Secondary Loss Event Frequency", [("a", [("constant", 1%Q)])]);
       ("Secondary Loss Event Magnitude", [("a", [("constant", 3%Q)])])]
      (Replay.init []) = (Ok xs, st')
    ∧ length xs = 2%nat.
Proof.
  eexists _, _. split; [vm_compute; reflexivity |].
  eapply (generate_multi_length (H := Replay.samplers) "multi_Secondary Loss" 2
            "Secondary Loss Event Frequency" [("a", [("constant", 1%Q)])]
            "Secondary Loss Event Magnitude" [("a", [("constant", 3%Q)])]
            (Replay.init [])).
  - by_eval.
  - vm_compute. reflexivity.
Defined.

(** * The order of the checks *)

(** What each check does on keywords described by what they are, not by
    what an earlier check returned. *)

Lemma _check_le_1_out_of_range (target : string) (kw : kwargs) :
  target ∈ _le_1_targets ->
  (∃ key value, (key, value) ∈ kw ∧ key ≠ "stdev" ∧ ¬ (0 <= value <= 1)%Q) ->
  ∃ key, key ∈ keys kw
    ∧ _check_le_1 target kw = Raise (FairException (OutOfRange target key)).
Proof.
  intros Ht (key & value & Hin & Hkey & Hout). unfold _check_le_1.
  destruct (for_each_fails kw
    (fun '(key, value) =>
       if decide (target ∈ _le_1_targets) then
         if decide (key = "stdev") then Ok tt
         else if Qle_bool 0 value && Qle_bool value 1 then Ok tt
         else Raise (FairException (OutOfRange target key))
       else Ok tt) (key, value)
    (FairException (OutOfRange target key)) Hin) as [e He].
  { rewrite (decide_True _ _ Ht), (decide_False _ _ Hkey).
    destruct (Qle_bool 0 value) eqn:H0; [| done].
    destruct (Qle_bool value 1) eqn:H1; [| done].
    apply Qle_bool_iff in H0, H1. by destruct Hout. }
  rewrite He. apply for_each_raise in He as ([k v] & Hk & He).
  rewrite (decide_True _ _ Ht) in He.
  exists k. split; [apply list_elem_of_fmap; by exists (k, v) |].
  repeat case_match; by simplify_eq.
Qed.

Lemma _check_le_1_in_range (target : string) (kw : kwargs) :
  (target ∈ _le_1_targets ->
   ∀ key value, (key, value) ∈ kw -> key ≠ "stdev" -> (0 <= value <= 1)%Q) ->
  (if decide (target ∈ _le_1_targets) then _check_le_1 target kw else Ok tt)
  = Ok tt.
Proof.
  intros Hall. destruct (decide (target ∈ _le_1_targets)) as [Ht|]; [| done].
  apply for_each_ok. intros [key value] Hin. rewrite (decide_True _ _ Ht).
  destruct (decide (key = "stdev")) as [|Hkey]; [done |].
  destruct (Hall Ht key value Hin Hkey) as [H0 H1].
  by rewrite (proj2 (Qle_bool_iff _ _) H0), (proj2 (Qle_bool_iff _ _) H1).
Qed.

Lemma _determine_func_raise (kw : kwargs) (e : exn) :
  _determine_func kw = Raise e ->
  e = IndexError
  ∨ (∃ key, key ∈ keys kw ∧ e = FairException (UnrecognizedKeyword key))
  ∨ e = FairException (MixedKeyword (keys kw)).
Proof.
  unfold _determine_func.
  destruct (for_each (keys kw) _) as [[]|e'] eqn:Hloop; simpl.
  - case_decide; [intros [= <-]; auto |].
    destruct (_ !! 0%nat); [done | intros [= <-]; auto].
  - intros [= <-]. apply for_each_raise in Hloop as (key & Hkey & Hb).
    case_decide; [done |]. simplify_eq. right. left. eauto.
Qed.

Lemma _determine_func_one_family (kw : kwargs) (func : family) :
  kw ≠ [] ->
  (∀ k, k ∈ keys kw -> dict_get k _parameter_map = Some func) ->
  _determine_func kw = Ok func.
Proof.
  intros Hne Hall.
  rewrite _determine_func_functions
    by (intros k Hk; eapply dict_get_Some_keys; eauto).
  cbv zeta. set (functions := remove_dups _).
  assert (functions = [func]) as ->; [| done].
  apply NoDup_all_equal.
  - apply NoDup_remove_dups.
  - intros f (k & Hk & Hf)%elem_of_remove_dups%list_elem_of_omap.
    rewrite (Hall k Hk) in Hf. by simplify_eq.
  - apply elem_of_remove_dups, list_elem_of_omap.
    destruct kw as [|[k v] kw]; [done |].
    exists k. split; [by left | apply Hall; by left].
Qed.

Lemma _check_parameters_negative (func : family) (kw : kwargs) :
  (∃ keyword value,
      (keyword, value) ∈ kw ∧ (value < 0)%Q
      ∧ keyword ∈ ["p"; "mean"; "constant"; "low"; "mode"; "high"]) ->
  ∃ key, key ∈ keys kw
    ∧ _check_parameters func kw = Raise (FairException (NegativeValue key)).
Proof.
  intros (keyword & value & Hin & Hneg & Hrel). unfold _check_parameters.
  destruct (for_each_fails kw
    (fun '(keyword, value) =>
       if bool_decide (keyword ∈ ["p"; "mean"; "constant"; "low"; "mode"; "high"])
          && Qlt_bool value 0
       then Raise (FairException (NegativeValue keyword))
       else Ok tt) (keyword, value)
    (FairException (NegativeValue keyword)) Hin) as [e He].
  { by rewrite (bool_decide_true _ Hrel), (proj2 (Qlt_bool_iff _ _) Hneg). }
  simpl. rewrite He. simpl.
  apply for_each_raise in He as ([k v] & Hk & He).
  exists k. split; [apply list_elem_of_fmap; by exists (k, v) |].
  repeat case_match; by simplify_eq.
Qed.

Lemma _check_parameters_no_negative (func : family) (kw : kwargs) :
  ¬ (∃ keyword value,
        (keyword, value) ∈ kw ∧ (value < 0)%Q
        ∧ keyword ∈ ["p"; "mean"; "constant"; "low"; "mode"; "high"]) ->
  _check_parameters func kw
  = for_each (_required_keywords func) (fun required_keyword =>
      if decide (required_keyword ∈ keys kw) then Ok tt
      else Raise (FairException (MissingKeyword func required_keyword))).
Proof.
  intros Hnone. unfold _check_parameters. rewrite for_each_ok; [done |].
  intros [keyword value] Hin.
  destruct (bool_decide _) eqn:Hrel; [| done]. simpl.
  destruct (Qlt_bool value 0) eqn:Hneg; [| done].
  apply bool_decide_eq_true in Hrel. apply Qlt_bool_iff in Hneg.
  destruct Hnone. eauto.
Qed.

Section CheckOrder.
Context `{Samplers}.

Implicit Types (st : state) (kw : kwargs) (target : string) (count : nat).

(** C8, amended. The checks of a request run in the order: range check on
    the raw keywords, family determination, non-negativity, required
    keywords, PERT ordering; each is reached only when those before it
    pass, and the first that fails gives the error, with nothing stored.

    (1) A value out of [0, 1] on a target of [_le_1_targets] gives the
        out-of-range error, whatever else is wrong.
    (2) With the values in range, keywords that are not those of one
        function give the error of the family determination
        (unrecognized keyword, mixed keywords, or the index error for no
        keyword at all), also when a value is negative.
    (3) With keywords of one function, a negative value gives the
        negative-value error, also when a required keyword is missing.
    (4) With no negative value, a missing required keyword gives the
        missing-keyword error, also when PERT keywords are out of order.
    (5) PERT keywords that pass all this and are out of order give the
        PERT error.
    (6) So with keywords of one function, a required keyword missing and
        a negative value, the error is never the missing-keyword one: it
        is the negative-value error outside [_le_1_targets] and the
        out-of-range error inside. *)
Theorem generate_validation_order target count kw st :
  let in_range :=
    target ∈ _le_1_targets ->
    ∀ key value, (key, value) ∈ kw -> key ≠ "stdev" -> (0 <= value <= 1)%Q in
  let one_family func :=
    kw ≠ [] ∧ ∀ k, k ∈ keys kw -> dict_get k _parameter_map = Some func in
  let negative :=
    ∃ keyword value,
      (keyword, value) ∈ kw ∧ (value < 0)%Q
      ∧ keyword ∈ ["p"; "mean"; "constant"; "low"; "mode"; "high"] in
  let missing func :=
    ∃ required, required ∈ _required_keywords func ∧ required ∉ keys kw in
  (target ∈ _le_1_targets ->
   (∃ key value, (key, value) ∈ kw ∧ key ≠ "stdev" ∧ ¬ (0 <= value <= 1)%Q) ->
   ∃ key, key ∈ keys kw
     ∧ generate target count kw st
       = (Raise (FairException (OutOfRange target key)), st))
  ∧ (target ∉ _bernoulli_targets -> in_range ->
     (∀ func, ¬ one_family func) ->
     ∃ e, generate target count kw st = (Raise e, st)
       ∧ (e = IndexError
          ∨ (∃ key, key ∈ keys kw ∧ e = FairException (UnrecognizedKeyword key))
          ∨ e = FairException (MixedKeyword (keys kw))))
  ∧ (∀ func, target ∉ _bernoulli_targets -> in_range ->
     one_family func -> negative ->
     ∃ key, key ∈ keys kw
       ∧ generate target count kw st
         = (Raise (FairException (NegativeValue key)), st))
  ∧ (∀ func, target ∉ _bernoulli_targets -> in_range ->
     one_family func -> ¬ negative -> missing func ->
     ∃ required,
       required ∈ _required_keywords func ∧ (required ∉ keys kw)
       ∧ generate target count kw st
         = (Raise (FairException (MissingKeyword func required)), st))
  ∧ (∀ low mode high, target ∉ _bernoulli_targets -> in_range ->
     one_family GenPert -> ¬ negative -> ¬ missing GenPert ->
     dict_get "low" kw = Some low -> dict_get "mode" kw = Some mode ->
     dict_get "high" kw = Some high ->
     (mode < low ∨ high < mode)%Q ->
     ∃ condition_name,
       generate target count kw st
       = (Raise (FairException (PertOrdering kw condition_name)), st))
  ∧ (∀ func, target ∉ _bernoulli_targets ->
     one_family func -> missing func -> negative ->
     ∃ key, key ∈ keys kw
       ∧ generate target count kw st
         = (Raise (FairException
                     (if decide (target ∈ _le_1_targets)
                      then OutOfRange target key
                      else NegativeValue key)), st)).
Proof.
  intros in_range one_family negative missing.
  assert (target ∈ _le_1_targets ->
          (∃ key value,
              (key, value) ∈ kw ∧ key ≠ "stdev" ∧ ¬ (0 <= value <= 1)%Q) ->
          ∃ key, key ∈ keys kw
            ∧ generate target count kw st
              = (Raise (FairException (OutOfRange target key)), st)) as Hrange.
  { intros Ht Hout.
    destruct (_check_le_1_out_of_range _ _ Ht Hout) as (key & Hkey & Hle).
    exists key. split; [done |].
    by rewrite generate_eq, _generate_single_eq, (decide_True _ _ Ht), Hle. }
  assert (∀ func, target ∉ _bernoulli_targets -> in_range ->
          one_family func -> negative ->
          ∃ key, key ∈ keys kw
            ∧ generate target count kw st
              = (Raise (FairException (NegativeValue key)), st)) as Hnegative.
  { intros func Hnb Hin [Hne Hall] Hneg.
    destruct (_check_parameters_negative func kw Hneg) as (key & Hkey & Hcp).
    exists key. split; [done |].
    rewrite generate_eq, _generate_single_eq, (_check_le_1_in_range _ _ Hin).
    rewrite (decide_False _ _ Hnb).
    by rewrite (_determine_func_one_family _ _ Hne Hall), Hcp. }
  split; [exact Hrange |]. split; [| split; [exact Hnegative |]].
  - intros Hnb Hin Hnone.
    destruct (_determine_func kw) as [func|e] eqn:Hf.
    + destruct (Hnone func). split; [by intros -> |].
      intros k Hk. by eapply _determine_func_key.
    + exists e. split; [| by apply _determine_func_raise].
      rewrite generate_eq, _generate_single_eq, (_check_le_1_in_range _ _ Hin).
      by rewrite (decide_False _ _ Hnb), Hf.
  - split; [| split].
    + intros func Hnb Hin [Hne Hall] Hnoneg (required & Hreq & Habsent).
      destruct (for_each_fails (_required_keywords func)
        (fun required_keyword =>
           if decide (required_keyword ∈ keys kw) then Ok tt
           else Raise (FairException (MissingKeyword func required_keyword)))
        required (FairException (MissingKeyword func required)) Hreq)
        as [e He]; [by rewrite decide_False |].
      pose proof He as He'.
      apply for_each_raise in He' as (r & Hr & Hb).
      case_decide as Hr'; [done |]. simplify_eq.
      exists r. split; [done |]. split; [done |].
      rewrite generate_eq, _generate_single_eq, (_check_le_1_in_range _ _ Hin).
      rewrite (decide_False _ _ Hnb).
      rewrite (_determine_func_one_family _ _ Hne Hall).
      by rewrite (_check_parameters_no_negative _ _ Hnoneg), He.
    + intros low mode high Hnb Hin [Hne Hall] Hnoneg Hnomiss
        Hlow Hmode Hhigh Hord.
      assert (_check_parameters GenPert kw = Ok tt) as Hcp.
      { rewrite (_check_parameters_no_negative _ _ Hnoneg).
        apply for_each_ok. intros r Hr.
        destruct (decide (r ∈ keys kw)); [done |].
        destruct Hnomiss. by exists r. }
      rewrite generate_eq, _generate_single_eq, (_check_le_1_in_range _ _ Hin).
      rewrite (decide_False _ _ Hnb).
      rewrite (_determine_func_one_family _ _ Hne Hall), Hcp.
      simpl. unfold _gen_pert, bind, lift, _check_pert, kw_get.
      rewrite Hlow, Hmode, Hhigh. simpl.
      destruct (Qle_bool low mode) eqn:H1; simpl; [| by eexists].
      apply Qle_bool_iff in H1.
      destruct Hord as [Hlt|Hlt]; [by apply Qlt_not_le in Hlt |].
      apply Qlt_bool_iff in Hlt. unfold Qlt_bool in Hlt.
      apply negb_true_iff in Hlt. rewrite Hlt. simpl. by eexists.
    + intros func Hnb Hfam _ Hneg.
      destruct (decide (target ∈ _le_1_targets)) as [Ht|Ht].
      * apply Hrange; [done |].
        destruct Hneg as (keyword & value & Hin & Hlt & Hrel).
        exists keyword, value. split; [done |]. split.
        -- intros ->. apply (bool_decide_pack _) in Hrel.
           by vm_compute in Hrel.
        -- intros [H0 _]. by apply Qlt_not_le in Hlt.
      * by apply (Hnegative func).
Qed.

(** ** The key of [generate_multi], in the store *)

(** X17. Whether or not the target carries the prefix, and also when the
    key of an earlier call is passed as the target, a successful
    [generate_multi] writes the same entry of the store: a second call
    made in one of these ways replaces what the first call stored, and
    the store is what the second call alone would have left. *)
Theorem generate_multi_same_entry (prefixed_target prefixed_target' : string)
    count count' (kwargs_dict kwargs_dict' : nested_dict) st xs st' xs' st'' :
  generate_multi prefixed_target count kwargs_dict st = (Ok xs, st') ->
  prefixed_target' = "multi_" +:+ prefixed_target
  ∨ prefixed_target' = "multi_" +:+ lstrip "multi_" prefixed_target
  ∨ prefixed_target' = lstrip "multi_" prefixed_target ->
  generate_multi prefixed_target' count' kwargs_dict' st' = (Ok xs', st'') ->
  let key := "multi_" +:+ lstrip "multi_" prefixed_target in
  get_supplied_values st' !! key = Some (Nested kwargs_dict)
  ∧ get_supplied_values st'' !! key = Some (Nested kwargs_dict')
  ∧ get_supplied_values st''
    = <[key := Nested kwargs_dict']> (get_supplied_values st).
Proof.
  intros Hfirst Htarget Hsecond key. unfold get_supplied_values.
  pose proof (run_supplied
                (GenerateMulti prefixed_target count kwargs_dict) st) as Hs1.
  pose proof (run_supplied
                (GenerateMulti prefixed_target' count' kwargs_dict') st')
    as Hs2.
  simpl in Hs1, Hs2. rewrite Hfirst in Hs1. rewrite Hsecond in Hs2.
  assert (lstrip "multi_" prefixed_target' = lstrip "multi_" prefixed_target)
    as Hkey.
  { destruct Htarget as [->|[->| ->]].
    - done.
    - apply (lstrip_idempotent "multi_").
    - apply lstrip_idempotent. }
  rewrite Hkey in Hs2. fold key in Hs1, Hs2.
  rewrite Hs2, Hs1. split; [apply lookup_insert_eq |].
  split; [apply lookup_insert_eq | apply insert_insert_eq].
Qed.

(** X18. [generate_multi] never writes an entry whose key is the prefix
    followed by a name that starts with one of m, u, l, t, i, _: whether
    the call succeeds or fails, every such entry of the store is as it was
    before. *)
Theorem generate_multi_stripped_keys (prefixed_target : string) count
    (kwargs_dict : nested_dict) st (c : Ascii.ascii) (name : string) :
  c ∈ String.list_ascii_of_string "multi_" ->
  get_supplied_values
    (generate_multi prefixed_target count kwargs_dict st).2
    !! ("multi_" +:+ String c name)
  = get_supplied_values st !! ("multi_" +:+ String c name).
Proof.
  intros Hc. unfold get_supplied_values.
  pose proof (run_supplied
                (GenerateMulti prefixed_target count kwargs_dict) st) as Hs.
  simpl in Hs.
  destruct (generate_multi prefixed_target count kwargs_dict st)
    as [[xs|e] st']; simpl; rewrite Hs; [| done].
  apply lookup_insert_ne. intros [= Hkey].
  by apply lstrip_head in Hkey.
Qed.

End CheckOrder.

(** C8, amended, one request for each step of the order: out of range and
    mixed on Action; mixed and negative; negative and missing; missing and
    out of order; out of order; negative and missing on Action. *)
Lemma generate_validation_order_witness :
  let st0 := Replay.init [] in
  (∃ key, generate (H := Replay.samplers) "Action" 3
            [("constant", 5%Q); ("mean", 2%Q)] st0
          = (Raise (FairException (OutOfRange "Action" key)), st0))
  ∧ generate (H := Replay.samplers) "Loss Event Frequency" 3
      [("constant", (-1)%Q); ("mean", 2%Q)] st0
    = (Raise (FairException (MixedKeyword ["constant"; "mean"])), st0)
  ∧ (∃ key, generate (H := Replay.samplers) "Loss Event Frequency" 3
              [("low", (-1)%Q); ("mode", 2%Q)] st0
            = (Raise (FairException (NegativeValue key)), st0))
  ∧ (∃ required, generate (H := Replay.samplers) "Loss Event Frequency" 3
                   [("low", 10%Q); ("mode", 5%Q)] st0
                 = (Raise (FairException (MissingKeyword GenPert required)),
                    st0))
  ∧ (∃ condition_name,
        generate (H := Replay.samplers) "Loss Event Frequency" 3
          [("low", 10%Q); ("mode", 5%Q); ("high", 20%Q)] st0
        = (Raise (FairException
                    (PertOrdering
                       [("low", 10%Q); ("mode", 5%Q); ("high", 20%Q)]
                       condition_name)), st0))
  ∧ (∃ key, generate (H := Replay.samplers) "Action" 3
              [("low", (-1)%Q); ("mode", 2%Q)] st0
            = (Raise (FairException (OutOfRange "Action" key)), st0)).
Proof.
  cbv zeta.
  assert ("Loss Event Frequency" ∉ _le_1_targets) as Hnle by by_eval.
  assert ("Loss Event Frequency" ∉ _bernoulli_targets) as Hnb by by_eval.
  assert ("Action" ∉ _bernoulli_targets) as Hnb' by by_eval.
  assert (∀ kw : kwargs,
            "Loss Event Frequency" ∈ _le_1_targets ->
            ∀ key value, (key, value) ∈ kw -> key ≠ "stdev" ->
                         (0 <= value <= 1)%Q) as Hin by done.
  split; [| split; [| split; [| split; [| split]]]].
  - destruct (generate_validation_order (H := Replay.samplers) "Action" 3
                [("constant", 5%Q); ("mean", 2%Q)] (Replay.init []))
      as (Hrange & _).
    destruct Hrange as (key & _ & Hgen); [by_eval | | by exists key].
    exists "constant", 5%Q. split; [by left |]. split; [done |].
    intros [_ Hle]. by vm_compute in Hle.
  - destruct (generate_validation_order (H := Replay.samplers)
                "Loss Event Frequency" 3
                [("constant", (-1)%Q); ("mean", 2%Q)] (Replay.init []))
      as (_ & Hfamily & _).
    destruct Hfamily as (e & Hgen & He); [done | apply Hin | |].
    + intros func [_ Hall].
      pose proof (Hall "constant" ltac:(by_eval)) as H1.
      pose proof (Hall "mean" ltac:(by_eval)) as H2.
      vm_compute in H1, H2. congruence.
    + rewrite Hgen. vm_compute in Hgen. by simplify_eq.
  - destruct (generate_validation_order (H := Replay.samplers)
                "Loss Event Frequency" 3
                [("low", (-1)%Q); ("mode", 2%Q)] (Replay.init []))
      as (_ & _ & Hnegative & _).
    destruct (Hnegative GenPert) as (key & _ & Hgen);
      [done | apply Hin | | | by exists key].
    + split; [done |].
      intros k [->|[->|[]%elem_of_nil]%elem_of_cons]%elem_of_cons; reflexivity.
    + exists "low", (-1)%Q. split; [by left |]. split; [done | by_eval].
  - destruct (generate_validation_order (H := Replay.samplers)
                "Loss Event Frequency" 3
                [("low", 10%Q); ("mode", 5%Q)] (Replay.init []))
      as (_ & _ & _ & Hmissing & _).
    destruct (Hmissing GenPert) as (required & _ & _ & Hgen);
      [done | apply Hin | | | | by exists required].
    + split; [done |].
      intros k [->|[->|[]%elem_of_nil]%elem_of_cons]%elem_of_cons; reflexivity.
    + intros (keyword & value & Hmem & Hlt & _).
      apply elem_of_cons in Hmem as [[= -> ->]|Hmem];
        [by vm_compute in Hlt |].
      apply elem_of_cons in Hmem as [[= -> ->]|Hmem];
        [by vm_compute in Hlt | by apply elem_of_nil in Hmem].
    + exists "high". split; by_eval.
  - destruct (generate_validation_order (H := Replay.samplers)
                "Loss Event Frequency" 3
                [("low", 10%Q); ("mode", 5%Q); ("high", 20%Q)] (Replay.init []))
      as (_ & _ & _ & _ & Hpert & _).
    apply (Hpert 10%Q 5%Q 20%Q);
      [done | apply Hin | | | | reflexivity | reflexivity | reflexivity
      | by left].
    + split; [done |].
      intros k [->|[->|[->|[]%elem_of_nil]%elem_of_cons]%elem_of_cons]%elem_of_cons;
        reflexivity.
    + intros (keyword & value & Hmem & Hlt & _).
      apply elem_of_cons in Hmem as [[= -> ->]|Hmem];
        [by vm_compute in Hlt |].
      apply elem_of_cons in Hmem as [[= -> ->]|Hmem];
        [by vm_compute in Hlt |].
      apply elem_of_cons in Hmem as [[= -> ->]|Hmem];
        [by vm_compute in Hlt | by apply elem_of_nil in Hmem].
    + intros (required & Hr & Habsent). apply Habsent.
      apply elem_of_cons in Hr as [->|Hr]; [by_eval |].
      apply elem_of_cons in Hr as [->|Hr]; [by_eval |].
      apply elem_of_cons in Hr as [->|Hr]; [by_eval |].
      by apply elem_of_nil in Hr.
  - destruct (generate_validation_order (H := Replay.samplers) "Action" 3
                [("low", (-1)%Q); ("mode", 2%Q)] (Replay.init []))
      as (_ & _ & _ & _ & _ & Hboth).
    destruct (Hboth GenPert) as (key & _ & Hgen); [done | | | |].
    + split; [done |].
      intros k [->|[->|[]%elem_of_nil]%elem_of_cons]%elem_of_cons; reflexivity.
    + exists "high". split; by_eval.
    + exists "low", (-1)%Q. split; [by left |]. split; [done | by_eval].
    + exists key. rewrite Hgen. by rewrite decide_True by by_eval.
Defined.

(** X17 on a target passed first without and then with the prefix. *)
Lemma generate_multi_same_entry_witness :
  let first :=
    [("Secondary Loss Event Frequency", [("a", [("constant", 1%Q)])]);
     ("Secondary Loss Event Magnitude", [("a", [("constant", 3%Q)])])] in
  let second :=
    [("Secondary Loss Event Frequency", [("a", [("constant", 2%Q)])]);
     ("Secondary Loss Event Magnitude", [("a", [("constant", 5%Q)])])] in
  ∃ xs st' xs' st'',
    generate_multi (H := Replay.samplers) "Secondary Loss" 2 first
      (Replay.init []) = (Ok xs, st')
    ∧ generate_multi (H := Replay.samplers) "multi_Secondary Loss" 1 second st'
      = (Ok xs', st'')
    ∧ get_supplied_values st''
      = <["multi_Secondary Loss" := Nested second]> ∅.
Proof.
  cbv zeta. eexists _, _, _, _.
  split; [vm_compute; reflexivity |]. split; [vm_compute; reflexivity |].
  edestruct (generate_multi_same_entry (H := Replay.samplers)
               "Secondary Loss" "multi_Secondary Loss" 2 1
               [("Secondary Loss Event Frequency", [("a", [("constant", 1%Q)])]);
                ("Secondary Loss Event Magnitude", [("a", [("constant", 3%Q)])])]
               [("Secondary Loss Event Frequency", [("a", [("constant", 2%Q)])]);
                ("Secondary Loss Event Magnitude", [("a", [("constant", 5%Q)])])]
               (Replay.init []))
    as (_ & _ & Hstore);
    [vm_compute; reflexivity | by left | vm_compute; reflexivity |].
  exact Hstore.
Defined.

(** X18 on the target multi_magnitude: nothing appears under it. *)
Lemma generate_multi_stripped_keys_witness :
  get_supplied_values
    (generate_multi (H := Replay.samplers) "multi_magnitude" 2
       [("Loss Event Frequency", [("a", [("constant", 1%Q)])]);
        ("Loss Magnitude", [("a", [("constant", 1%Q)])])]
       (Replay.init [])).2 !! "multi_magnitude"
  = None.
Proof.
  etransitivity;
    [eapply (generate_multi_stripped_keys (H := Replay.samplers)
               "multi_magnitude" 2 _ (Replay.init []) _ "agnitude")
    | reflexivity].
  by_eval.
Defined.
